(** * agentid-nextjs: request classification, token extraction and the
      verification gate

    A shallow embedding of [src/detect.ts], [src/verify.ts],
    [src/middleware.ts], [src/index.ts] and [src/types.ts].

    Strings are sequences of 8-bit code units ([string]): this is exactly
    the ByteString type of the values a [Headers] object holds.  A [Headers]
    object is a finite map from lower-cased names to values.  The
    third-party functions the package calls ([new URL], [JSON.parse],
    [JSON.stringify], jose's [createRemoteJWKSet] and [jwtVerify]) are
    parameters of the development, gathered in the classes [Platform] and
    [Jose].  What is claimed about the inside of [jwtVerify] is settled on
    a model of jose that follows the specification ([JoseSpec]). *)

From Stdlib Require Import ZArith Bool Ascii String List.
From stdpp Require Import base option list gmap strings pretty.

Set Warnings "-register-all".

Open Scope string_scope.
Open Scope Z_scope.

(** ** JavaScript strings *)

Module JS.

(** [WhiteSpace] and [LineTerminator] code units below 256: TAB, LF, VT,
    FF, CR, SP and NBSP.  These are what [String.prototype.trim] strips. *)
Definition is_whitespace (c : ascii) : bool :=
  let n := N_of_ascii c in
  ((9 <=? n) && (n <=? 13))%N || (n =? 32)%N || (n =? 160)%N.

Fixpoint trimStart (s : string) : string :=
  match s with
  | EmptyString => EmptyString
  | String c s' => if is_whitespace c then trimStart s' else s
  end.

Fixpoint trimEnd (s : string) : string :=
  match s with
  | EmptyString => EmptyString
  | String c s' =>
      match trimEnd s' with
      | EmptyString => if is_whitespace c then EmptyString
                       else String c EmptyString
      | r => String c r
      end
  end.

Definition trim (s : string) : string := trimEnd (trimStart s).

(** [s.startsWith(p)] *)
Definition startsWith (s p : string) : bool := String.prefix p s.

(** [s.slice(n)] for [n >= 0] *)
Fixpoint slice (n : nat) (s : string) : string :=
  match n, s with
  | O, _ => s
  | S n', String _ s' => slice n' s'
  | S _, EmptyString => EmptyString
  end.

(** A string is truthy when it is not empty; [null] and [undefined] are
    falsy. *)
Definition truthy (s : string) : bool :=
  match s with EmptyString => false | _ => true end.

Definition truthy_opt (o : option string) : bool :=
  match o with Some s => truthy s | None => false end.

(** [o ?? d] *)
Definition nullish {A} (o : option A) (d : A) : A :=
  match o with Some a => a | None => d end.

(** The one-character string holding a double quote *)
Definition dquote : string := String (ascii_of_N 34) EmptyString.


End JS.

(** ** Regular expressions, as far as [detect.ts] uses them

    Every pattern of the file is a sequence of literal characters and [\b]
    assertions, compiled with the [i] flag and without [u] or [g]. *)

Module RegExp.

Inductive atom :=
| Lit (c : ascii)
| WordBoundary.

Definition pattern := list atom.

Fixpoint lits (s : string) : pattern :=
  match s with
  | EmptyString => []
  | String c s' => Lit c :: lits s'
  end.

(** [Canonicalize] for the [i] flag without [u]: the upper-case mapping,
    which never sends a code unit above 127 to one below 128.  All
    literals of the patterns are ASCII, so only the ASCII letters
    matter. *)
Definition canonicalize (c : ascii) : ascii :=
  let n := N_of_ascii c in
  if ((97 <=? n) && (n <=? 122))%N then ascii_of_N (n - 32) else c.

Definition ci_eqb (p c : ascii) : bool :=
  bool_decide (canonicalize p = canonicalize c).

(** [IsWordChar]: [A-Za-z0-9_] *)
Definition is_word_char (c : ascii) : bool :=
  let n := N_of_ascii c in
  ((97 <=? n) && (n <=? 122))%N || ((65 <=? n) && (n <=? 90))%N
  || ((48 <=? n) && (n <=? 57))%N || (n =? 95)%N.

Definition is_word (o : option ascii) : bool :=
  match o with Some c => is_word_char c | None => false end.

Definition head (s : string) : option ascii :=
  match s with EmptyString => None | String c _ => Some c end.

(** Does [p] match at the current position?  [prev] is the character just
    before it. *)
Fixpoint match_here (p : pattern) (prev : option ascii) (s : string) : bool :=
  match p with
  | [] => true
  | WordBoundary :: p' =>
      xorb (is_word prev) (is_word (head s)) && match_here p' prev s
  | Lit c :: p' =>
      match s with
      | EmptyString => false
      | String d s' => ci_eqb c d && match_here p' (Some d) s'
      end
  end.

Fixpoint search (p : pattern) (prev : option ascii) (s : string) : bool :=
  match_here p prev s ||
  match s with
  | EmptyString => false
  | String d s' => search p (Some d) s'
  end.

(** [p.test(s)] *)
Definition test (p : pattern) (s : string) : bool := search p None s.

End RegExp.

(** ** Headers *)

Abbreviation Headers := (gmap string string).

Module Hdr.

(** [headers.get(name)]; [None] is [null]. *)
Definition get (h : Headers) (name : string) : option string := h !! name.

(** [headers.delete(name)] *)
Definition delete (h : Headers) (name : string) : Headers :=
  base.delete name h.

(** HTTP whitespace bytes: TAB, LF, CR, SP. *)
Definition is_http_whitespace (c : ascii) : bool :=
  let n := N_of_ascii c in
  (n =? 9)%N || (n =? 10)%N || (n =? 13)%N || (n =? 32)%N.

Fixpoint stripStart (s : string) : string :=
  match s with
  | EmptyString => EmptyString
  | String c s' => if is_http_whitespace c then stripStart s' else s
  end.

Fixpoint stripEnd (s : string) : string :=
  match s with
  | EmptyString => EmptyString
  | String c s' =>
      match stripEnd s' with
      | EmptyString => if is_http_whitespace c then EmptyString
                       else String c EmptyString
      | r => String c r
      end
  end.

Definition normalize (v : string) : string := stripEnd (stripStart v).

(** A header value holds no NUL, LF or CR. *)
Fixpoint valid_value (v : string) : bool :=
  match v with
  | EmptyString => true
  | String c v' =>
      let n := N_of_ascii c in
      negb ((n =? 0)%N || (n =? 10)%N || (n =? 13)%N) && valid_value v'
  end.

(** [headers.set(name, value)]: the value is normalized, then validated;
    [None] stands for the [TypeError] of an invalid value. *)
Definition set (h : Headers) (name value : string) : option Headers :=
  let v := normalize value in
  if valid_value v then Some (<[name := v]> h) else None.

End Hdr.

(** ** detect.ts *)

Import RegExp.

Definition BOT_UA_PATTERNS : list pattern :=
  [ (* OpenAI *)
    lits "GPTBot"; lits "ChatGPT-User"; lits "OAI-SearchBot";
    (* Anthropic / Claude *)
    lits "ClaudeBot"; lits "Claude-Web"; lits "anthropic-ai";
    lits "Claude-User";
    (* Google *)
    lits "Googlebot"; lits "Google-Extended"; lits "AdsBot-Google";
    (* Microsoft / Bing *)
    lits "bingbot"; lits "msnbot";
    (* AI search engines *)
    lits "PerplexityBot"; lits "YouBot";
    (* Common HTTP automation libraries *)
    lits "python-requests"; lits "node-fetch";
    WordBoundary :: lits "axios" ++ [WordBoundary];
    WordBoundary :: lits "got" ++ [WordBoundary; Lit "/"];
    WordBoundary :: lits "undici" ++ [WordBoundary];
    WordBoundary :: lits "curl" ++ [WordBoundary];
    WordBoundary :: lits "wget" ++ [WordBoundary];
    WordBoundary :: lits "httpie" ++ [WordBoundary];
    (* Generic crawler signals *)
    WordBoundary :: lits "bot" ++ [WordBoundary];
    WordBoundary :: lits "crawler" ++ [WordBoundary];
    WordBoundary :: lits "spider" ++ [WordBoundary];
    WordBoundary :: lits "scraper" ++ [WordBoundary];
    WordBoundary :: lits "fetcher" ++ [WordBoundary];
    (* MCP / AgentID clients *)
    lits "mcp-client"; lits "agentid-client" ].

Definition BROWSER_UA_RE : pattern := lits "Mozilla/5.0".

Definition isAgentRequest (headers : Headers) : bool :=
  let ua := JS.nullish (Hdr.get headers "user-agent") "" in
  (* No User-Agent *)
  if negb (JS.truthy ua) then true
  (* Explicit bot / agent UA match *)
  else if existsb (fun p => test p ua) BOT_UA_PATTERNS then true
  (* non-browser UA + no Accept-Language *)
  else if negb (test BROWSER_UA_RE ua)
          && negb (JS.truthy_opt (Hdr.get headers "accept-language"))
  then true
  else false.

Definition extractToken (headers : Headers) : option string :=
  let auth := JS.nullish (Hdr.get headers "authorization") "" in
  let primary :=
    if JS.startsWith auth "Bearer " then
      let token := JS.trim (JS.slice 7 auth) in
      if JS.truthy token then Some token else None
    else None in
  match primary with
  | Some token => Some token
  | None =>
      let custom := JS.trim <$> Hdr.get headers "x-agentid-token" in
      if JS.truthy_opt custom then custom else None
  end.


(** A header set from its entries, as [new Headers(init)] builds it. *)
Definition h (init : list (string * string)) : Headers := list_to_map init.

(** ** types.ts *)

(** A parsed JSON value.  Numbers are the integers: the timestamps of the
    claims are integer unix seconds. *)
Inductive json :=
| JNull
| JBool (b : bool)
| JNum (n : Z)
| JStr (s : string)
| JArr (items : list json)
| JObj (members : list (string * json)).

(** The payload of a token is a JavaScript object used as a map from claim
    names to values; a missing claim reads as [undefined] ([None]).
    [AgentIDClaims] is the same object seen through a type assertion. *)
Abbreviation JWTPayload := (gmap string json).
Abbreviation AgentIDClaims := (gmap string json).

Inductive Reason := not_agent | no_token | invalid_token.

Inductive AgentIDResult :=
| AgentIDVerified (claims : json)
| AgentIDUnverified (reason : Reason).

Module JSValue.

(** [String(v)] *)
Fixpoint toString (v : json) : string :=
  match v with
  | JNull => "null"
  | JBool true => "true"
  | JBool false => "false"
  | JNum n => pretty n
  | JStr s => s
  | JArr items =>
      String.concat ","
        (List.map (fun x => match x with JNull => "" | _ => toString x end)
                  items)
  | JObj _ => "[object Object]"
  end.

(** [String(v)] of a property that may be missing *)
Definition toString_opt (v : option json) : string :=
  match v with Some x => toString x | None => "undefined" end.

(** [v === s] for a string literal [s] *)
Definition strict_eq_string (v : option json) (s : string) : bool :=
  match v with
  | Some (JStr t) => bool_decide (t = s)
  | _ => false
  end.

(** [typeof v === "string"] *)
Definition is_string (v : option json) : bool :=
  match v with Some (JStr _) => true | _ => false end.

(** [v.length] of a string *)
Definition length (v : option json) : nat :=
  match v with Some (JStr t) => String.length t | _ => O end.

(** [v ?? d] inside a template literal *)
Definition nullish_template (v : option json) (d : string) : string :=
  match v with
  | None | Some JNull => d
  | Some x => toString x
  end.

End JSValue.

(** ** Exceptions *)

(** The failures of token verification that arise inside jose. *)
Inductive JoseFailure :=
| NetworkFailure
| UnknownKeyId
| MalformedToken
| AlgorithmRejected
| SignatureInvalid
| IssuerMismatch
| TokenExpired.

(** What the code can throw: the platform's [TypeError], the [Error]s the
    package itself raises, and jose's errors.  All of them are instances of
    [Error] and carry a message. *)
Inductive Exn :=
| TypeError (message : string)
| Error (message : string)
| JOSEError (kind : JoseFailure) (message : string).

Definition message (e : Exn) : string :=
  match e with
  | TypeError m | Error m | JOSEError _ m => m
  end.

(** ** The platform and the jose library *)

Record URL := { protocol : string; hostname : string; href : string }.

Class Platform := {
  (** [new URL(s)]; [None] when it throws *)
  URL_parse : string -> option URL;
  (** [JSON.parse(s)]; [None] when it throws *)
  JSON_parse : string -> option json;
  JSON_stringify : JWTPayload -> string;
}.

Module JWTVerifyOptions.
Record t := { issuer : string; algorithms : list string; clockTolerance : Z }.
End JWTVerifyOptions.

(** jose keeps state of its own (the key material it fetched); its two
    functions read and write that state and nothing else.  [jwtVerify] also
    reads the clock. *)
Class Jose := {
  jose_state : Type;
  RemoteJWKSet : Type;
  createRemoteJWKSet :
    URL -> Z -> jose_state -> RemoteJWKSet * jose_state;
  jwtVerify :
    string -> RemoteJWKSet -> JWTVerifyOptions.t -> Z ->
    jose_state -> (Exn + JWTPayload) * jose_state;
}.

Module VerifyTokenOptions.
Record t := { jwksUrl : option string; clockTolerance : option Z }.
End VerifyTokenOptions.

Record NextRequest := { headers : Headers; url : string }.

Inductive NextResponse :=
| NextResponse_next (request_headers : Headers)
| NextResponse_json (body : json) (status : Z)
| NextResponse_other (status : Z) (body : string).

Module AgentIDMiddlewareOptions.
Record t := {
  jwksUrl : option string;
  blockUnauthorizedAgents : option bool;
  clockTolerance : option Z;
  onUnauthorizedAgent : option (NextRequest -> string -> option NextResponse);
}.
End AgentIDMiddlewareOptions.

Section Gate.

Context {platform : Platform} {jose_lib : Jose}.

(** The state of the process: the clock, the module-level map [jwksSets],
    jose's own state and what was written to the console. *)
Record World := {
  clock : Z;
  jwksSets : gmap string RemoteJWKSet;
  jose : jose_state;
  console : list string;
}.

(** Computations that read and write the world and may throw. *)
Definition M (A : Type) : Type := World -> (Exn + A) * World.

Definition ret {A} (a : A) : M A := fun w => (inr a, w).

Definition throw {A} (e : Exn) : M A := fun w => (inl e, w).

Definition bind {A B} (m : M A) (k : A -> M B) : M B :=
  fun w => match m w with
           | (inl e, w') => (inl e, w')
           | (inr a, w') => k a w'
           end.

Definition try_catch {A} (m : M A) (handler : Exn -> M A) : M A :=
  fun w => match m w with
           | (inl e, w') => handler e w'
           | (inr a, w') => (inr a, w')
           end.

Notation "'let*' x ':=' m 'in' k" := (bind m (fun x => k))
  (at level 10, x name, m at level 100, k at level 200).

Definition console_warn (line : string) : M unit :=
  fun w => (inr tt, {| clock := clock w; jwksSets := jwksSets w;
                       jose := jose w; console := console w ++ [line] |}).

Definition Headers_set (hs : Headers) (name value : string) : M Headers :=
  match Hdr.set hs name value with
  | Some hs' => ret hs'
  | None => throw (TypeError "Invalid header value")
  end.

(** *** verify.ts *)

Definition DEFAULT_JWKS_URL : string := "https://agentidapp.vercel.app/api/jwks".

Definition isLocal (url : URL) : bool :=
  bool_decide (hostname url = "localhost")
  || bool_decide (hostname url = "127.0.0.1")
  || bool_decide (hostname url = "::1").

Definition getJwks (rawUrl : string) : M RemoteJWKSet :=
  fun w =>
    match jwksSets w !! rawUrl with
    | Some set => (inr set, w)
    | None =>
        match URL_parse rawUrl with
        | None => (inl (TypeError "Invalid URL"), w)
        | Some url =>
            if negb (bool_decide (protocol url = "https:")) && negb (isLocal url)
            then (inl (Error ("[agent-id] jwksUrl must use HTTPS, received: "
                              +:+ rawUrl)), w)
            else
              let '(set, j) :=
                createRemoteJWKSet url (60 * 60 * 1000) (jose w) in
              (inr set, {| clock := clock w;
                           jwksSets := <[rawUrl := set]> (jwksSets w);
                           jose := j; console := console w |})
        end
    end.

(** The call of jose's [jwtVerify], at the current time. *)
Definition call_jwtVerify (token : string) (JWKS : RemoteJWKSet)
    (options : JWTVerifyOptions.t) : M JWTPayload :=
  fun w =>
    let '(r, j) := jwtVerify token JWKS options (clock w) (jose w) in
    (r, {| clock := clock w; jwksSets := jwksSets w;
           jose := j; console := console w |}).

Definition verifyAgentIDToken (token : string)
    (options : VerifyTokenOptions.t) : M AgentIDClaims :=
  let jwksUrl := JS.nullish (VerifyTokenOptions.jwksUrl options) DEFAULT_JWKS_URL in
  let* JWKS := getJwks jwksUrl in
  let* payload :=
    call_jwtVerify token JWKS
      {| JWTVerifyOptions.issuer := "agentid";
         JWTVerifyOptions.algorithms := ["RS256"];
         JWTVerifyOptions.clockTolerance :=
           JS.nullish (VerifyTokenOptions.clockTolerance options) 30 |} in
  if negb (JSValue.strict_eq_string (payload !! "auth_method") "bankid") then
    throw (Error ("[agent-id] JWT has invalid auth_method: expected "
                  +:+ JS.dquote +:+ "bankid" +:+ JS.dquote +:+ ", got "
                  +:+ JS.dquote
                  +:+ JSValue.nullish_template (payload !! "auth_method") "undefined"
                  +:+ JS.dquote))
  else if negb (JSValue.is_string (payload !! "sub"))
          || bool_decide (JSValue.length (payload !! "sub") = O) then
    throw (Error "[agent-id] JWT is missing the sub claim")
  else ret payload.

(** *** middleware.ts *)

Definition MANAGED_HEADERS : list string :=
  ["x-agentid-verified"; "x-agentid-sub"; "x-agentid-claims"].

Definition MISSING_TOKEN_MESSAGE : string :=
  "Agent request missing AgentID token. Provide " +:+ JS.dquote
  +:+ "Authorization: Bearer <token>" +:+ JS.dquote +:+ ".".

Definition INVALID_TOKEN_MESSAGE : string := "Invalid or expired AgentID token.".

(** The override callback is caller code.  It is modelled as a function
    that returns, with a response or with nothing; a callback that throws
    is outside the model, so what is proved of a run with a callback is
    proved of callbacks that return. *)
Definition unauthorized (request : NextRequest) (requestHeaders : Headers)
    (message : string) (block : bool)
    (onUnauthorized : option (NextRequest -> string -> option NextResponse))
  : M NextResponse :=
  match match onUnauthorized with
        | Some callback => callback request message
        | None => None
        end with
  | Some custom => ret custom
  | None =>
      if block then
        ret (NextResponse_json
               (JObj [("error", JStr "AGENT_UNAUTHORIZED");
                      ("message", JStr message)])
               403)
      else
        let* requestHeaders := Headers_set requestHeaders "x-agentid-verified" "false" in
        ret (NextResponse_next requestHeaders)
  end.

(** The loop that removes the managed headers from the clone. *)
Definition strip_managed (requestHeaders : Headers) : Headers :=
  fold_left Hdr.delete MANAGED_HEADERS requestHeaders.

Definition createAgentIDMiddleware (options : AgentIDMiddlewareOptions.t)
    (request : NextRequest) : M NextResponse :=
  let jwksUrl := AgentIDMiddlewareOptions.jwksUrl options in
  let blockUnauthorizedAgents :=
    JS.nullish (AgentIDMiddlewareOptions.blockUnauthorizedAgents options) true in
  let clockTolerance :=
    JS.nullish (AgentIDMiddlewareOptions.clockTolerance options) 30 in
  let onUnauthorizedAgent := AgentIDMiddlewareOptions.onUnauthorizedAgent options in
  (* Clone the incoming headers and strip the client-supplied ones *)
  let requestHeaders := strip_managed (headers request) in
  (* Non-agent traffic *)
  if negb (isAgentRequest requestHeaders) then
    ret (NextResponse_next requestHeaders)
  else
    (* Agent detected: require a valid JWT *)
    let token := extractToken requestHeaders in
    if negb (JS.truthy_opt token) then
      unauthorized request requestHeaders MISSING_TOKEN_MESSAGE
        blockUnauthorizedAgents onUnauthorizedAgent
    else
      (* the [try] block holds the verification alone; its [catch]
         returns from the function *)
      let* outcome :=
        try_catch
          (let* claims :=
             verifyAgentIDToken (JS.nullish token "")
               {| VerifyTokenOptions.jwksUrl := jwksUrl;
                  VerifyTokenOptions.clockTolerance := Some clockTolerance |} in
           ret (inr claims))
          (fun err =>
             let* _ := console_warn ("[agent-id] Token verification failed: "
                                     +:+ message err) in
             let* response :=
               unauthorized request requestHeaders INVALID_TOKEN_MESSAGE
                 blockUnauthorizedAgents onUnauthorizedAgent in
             ret (inl response)) in
      match outcome with
      | inl response => ret response
      | inr claims =>
          (* Verified: inject the identity into the request headers *)
          let* requestHeaders := Headers_set requestHeaders "x-agentid-verified" "true" in
          let* requestHeaders :=
            Headers_set requestHeaders "x-agentid-sub"
              (JSValue.toString_opt (claims !! "sub")) in
          let* requestHeaders :=
            Headers_set requestHeaders "x-agentid-claims" (JSON_stringify claims) in
          ret (NextResponse_next requestHeaders)
      end.

(** *** index.ts *)

Definition getAgentIDResult (request : NextRequest) : AgentIDResult :=
  let verified := Hdr.get (headers request) "x-agentid-verified" in
  if negb (bool_decide (verified = Some "true")) then
    AgentIDUnverified
      (if bool_decide (verified = Some "false") then no_token else not_agent)
  else
    let claimsJson := Hdr.get (headers request) "x-agentid-claims" in
    if negb (JS.truthy_opt claimsJson) then AgentIDUnverified invalid_token
    else
      match JSON_parse (JS.nullish claimsJson "") with
      | Some claims => AgentIDVerified claims
      | None => AgentIDUnverified invalid_token
      end.

(** The request a route handler behind the proxy receives: the original one
    with the forwarded header set. *)
Definition downstream (request : NextRequest) (response : NextResponse)
  : option NextRequest :=
  match response with
  | NextResponse_next hs => Some {| headers := hs; url := url request |}
  | _ => None
  end.

End Gate.

(** ** jose, modelled from the specification

    jose is a dependency of the package, not part of it.  The claims about
    what happens inside [jwtVerify] are settled against the model below,
    which follows sections 4.3 and 4.4 of the specification step by step.
    Decoding, signature arithmetic and the network are parameters. *)

Module JoseSpec.

(** Modelled from the spec: the protected header of a token, with the
    declared algorithm and the key-id (section 4.4, glossary). *)
Record ProtectedHeader := { alg : string; kid : string }.

(** Modelled from the spec: what jose relies on and the specification
    leaves to the platform: decoding, signature arithmetic, the network. *)
Class Primitives := {
  PublicKey : Type;
  (** base64url and JSON decoding of the three segments *)
  decodeProtectedHeader : string -> option ProtectedHeader;
  decodePayload : string -> option JWTPayload;
  decodeSignature : string -> option string;
  (** [verifySignature alg key signingInput signature] *)
  verifySignature : string -> PublicKey -> string -> string -> bool;
  (** the GET of a key set, at a given time; [None] when it fails *)
  fetchJWKS : string -> Z -> option (gmap string PublicKey);
}.

(** Modelled from the spec: the observable steps of a verification, in the
    order they happen (sections 4.4 and 5). *)
Inductive Event :=
| NetworkFetch (endpoint : string)
| KeyLookup (key_id : string)
| SignatureVerification (key_id : string).

Section Model.

Context {prims : Primitives}.

(** Modelled from the spec: KeySetCacheEntry of section 3; [keys] is [None]
    until the first fetch. *)
Record KeySetCacheEntry := {
  endpoint : URL;
  keys : option (gmap string PublicKey);
  fetchedAt : Z;
  ttl : Z;
}.

(** Modelled from the spec: the process-wide key cache of jose (section
    4.3), with the trace of what was done. *)
Record State := {
  entries : list KeySetCacheEntry;
  trace : list Event;
}.

(** Modelled from the spec: a step is recorded in the trace. *)
Definition log (ev : Event) (st : State) : State :=
  {| entries := entries st; trace := trace st ++ [ev] |}.

(** Modelled from the spec: an entry is created on first access, without
    any fetch (section 4.3).  The handle is the index of the entry. *)
Definition createRemoteJWKSet_spec (u : URL) (cacheMaxAge : Z) (st : State)
  : nat * State :=
  (List.length (entries st),
   {| entries := entries st ++
                 [{| endpoint := u; keys := None; fetchedAt := 0;
                     ttl := cacheMaxAge |}];
      trace := trace st |}).

(** Modelled from the spec: a refresh replaces the key set and the timestamp
    of the entry as a unit; a failed fetch is a hard failure. *)
Definition refresh (handle : nat) (e : KeySetCacheEntry) (now : Z) (st : State)
  : (Exn + gmap string PublicKey) * State :=
  let st := log (NetworkFetch (href (endpoint e))) st in
  match fetchJWKS (href (endpoint e)) now with
  | None => (inl (JOSEError NetworkFailure "NetworkFailure"), st)
  | Some ks =>
      (inr ks,
       {| entries := <[handle := {| endpoint := endpoint e; keys := Some ks;
                                    fetchedAt := now; ttl := ttl e |}]>
                     (entries st);
          trace := trace st |})
  end.

(** Modelled from the spec: a lookup that still fails after the refresh is
    a hard failure (section 4.3). *)
Definition lookup_after_refresh (handle : nat) (e : KeySetCacheEntry)
    (key_id : string) (now : Z) (st : State) : (Exn + PublicKey) * State :=
  match refresh handle e now st with
  | (inl err, st) => (inl err, st)
  | (inr ks, st) =>
      match ks !! key_id with
      | Some k => (inr k, st)
      | None => (inl (JOSEError UnknownKeyId "UnknownKeyId"), st)
      end
  end.

(** Modelled from the spec: key lookup by key-id (section 4.3).  Key
    material is fetched on first use, when the TTL (milliseconds, against a
    clock in seconds) has elapsed, and when the key-id is not in the cached
    set; a lookup that still fails after the refresh is a failure. *)
Definition resolveKey (handle : nat) (key_id : string) (now : Z) (st : State)
  : (Exn + PublicKey) * State :=
  let st := log (KeyLookup key_id) st in
  match entries st !! handle with
  | None => (inl (JOSEError UnknownKeyId "UnknownKeyId"), st)
  | Some e =>
      match keys e with
      | None => lookup_after_refresh handle e key_id now st
      | Some ks =>
          if bool_decide (ttl e <= (now - fetchedAt e) * 1000) then
            lookup_after_refresh handle e key_id now st
          else
            match ks !! key_id with
            | Some k => (inr k, st)
            | None => lookup_after_refresh handle e key_id now st
            end
      end
  end.

(** Modelled from the spec: the dot-separated segments of a token. *)
Fixpoint split_dots (s : string) : list string :=
  match s with
  | EmptyString => [EmptyString]
  | String c s' =>
      if bool_decide (c = "."%char) then EmptyString :: split_dots s'
      else match split_dots s' with
           | seg :: rest => String c seg :: rest
           | [] => [String c EmptyString]
           end
  end.

(** Modelled from the spec: a structurally valid token, decoded. *)
Record ParsedToken := {
  protected : ProtectedHeader;
  payload : JWTPayload;
  signingInput : string;
  signature : string;
}.

(** Modelled from the spec: step 1 of section 4.4, the structural parse:
    three dot-separated segments, each validly encoded. *)
Definition parseToken (token : string) : option ParsedToken :=
  match split_dots token with
  | [h; p; s] =>
      match decodeProtectedHeader h, decodePayload p, decodeSignature s with
      | Some hd, Some pl, Some sg =>
          Some {| protected := hd; payload := pl;
                  signingInput := h +:+ "." +:+ p; signature := sg |}
      | _, _, _ => None
      end
  | _ => None
  end.

(** Modelled from the spec: steps 1 to 4 of section 4.4: structural parse,
    algorithm allowlist, key resolution, signature verification, in this
    order and stopping at the first failure. *)
Definition jwsVerify (token : string) (handle : nat) (algorithms : list string)
    (now : Z) (st : State) : (Exn + JWTPayload) * State :=
  match parseToken token with
  | None => (inl (JOSEError MalformedToken "MalformedToken"), st)
  | Some t =>
      if negb (bool_decide (alg (protected t) ∈ algorithms)) then
        (inl (JOSEError AlgorithmRejected "AlgorithmRejected"), st)
      else
        match resolveKey handle (kid (protected t)) now st with
        | (inl err, st) => (inl err, st)
        | (inr key, st) =>
            let st := log (SignatureVerification (kid (protected t))) st in
            if verifySignature (alg (protected t)) key
                 (signingInput t) (signature t)
            then (inr (payload t), st)
            else (inl (JOSEError SignatureInvalid "SignatureInvalid"), st)
        end
  end.

(** Modelled from the spec: step 5, the issuer claim equals the expected
    issuer exactly. *)
Definition issuerCheck (pl : JWTPayload) (issuer : string) : bool :=
  JSValue.strict_eq_string (pl !! "iss") issuer.

(** Modelled from the spec: step 6, the claim [exp] is at least the current
    time minus the clock tolerance. *)
Definition expiryCheck (pl : JWTPayload) (now tolerance : Z) : bool :=
  match pl !! "exp" with
  | Some (JNum exp) => bool_decide (now - tolerance <= exp)
  | _ => false
  end.

(** Modelled from the spec: steps 5 and 6 in their order. *)
Definition validateClaims (pl : JWTPayload) (options : JWTVerifyOptions.t)
    (now : Z) : Exn + JWTPayload :=
  if negb (issuerCheck pl (JWTVerifyOptions.issuer options)) then
    inl (JOSEError IssuerMismatch "IssuerMismatch")
  else if negb (expiryCheck pl now (JWTVerifyOptions.clockTolerance options)) then
    inl (JOSEError TokenExpired "TokenExpired")
  else inr pl.

(** Modelled from the spec: jose's [jwtVerify], steps 1 to 6 of section
    4.4. *)
Definition jwtVerify_spec (token : string) (handle : nat)
    (options : JWTVerifyOptions.t) (now : Z) (st : State)
  : (Exn + JWTPayload) * State :=
  match jwsVerify token handle (JWTVerifyOptions.algorithms options) now st with
  | (inl err, st) => (inl err, st)
  | (inr pl, st) => (validateClaims pl options now, st)
  end.

(** Modelled from the spec: the jose library as the package uses it. *)
Definition jose_spec : Jose :=
  {| jose_state := State;
     RemoteJWKSet := nat;
     createRemoteJWKSet := createRemoteJWKSet_spec;
     jwtVerify := jwtVerify_spec |}.

End Model.

End JoseSpec.

(** The world of a process that runs on the modelled jose. *)
Abbreviation SpecWorld := (@World JoseSpec.jose_spec).

(** ** A sample runtime

    Concrete stand-ins for the platform and for the primitives of jose, used
    to run the model on the inputs of the test-suite.  The general theorems
    hold for every platform; the sample only supplies concrete runs. *)

Module Sample.

Fixpoint scheme_and_rest (s : string) : option (string * string) :=
  match s with
  | EmptyString => None
  | String c s' =>
      if String.prefix "://" s then Some (EmptyString, JS.slice 3 s)
      else match scheme_and_rest s' with
           | Some (scheme, rest) => Some (String c scheme, rest)
           | None => None
           end
  end.

Fixpoint host_of (s : string) : string :=
  match s with
  | EmptyString => EmptyString
  | String c s' =>
      if bool_decide (c = "/"%char) || bool_decide (c = ":"%char)
         || bool_decide (c = "?"%char) || bool_decide (c = "#"%char)
      then EmptyString
      else String c (host_of s')
  end.

(** Scheme, [://] and host: enough for the URLs of the test-suite. *)
Definition parse_url (s : string) : option URL :=
  match scheme_and_rest s with
  | Some (scheme, rest) =>
      if JS.truthy scheme && JS.truthy (host_of rest) then
        Some {| protocol := scheme +:+ ":"; hostname := host_of rest; href := s |}
      else None
  | None => None
  end.

(** The literals only. *)
Definition parse_json (s : string) : option json :=
  if bool_decide (s = "null") then Some JNull
  else if bool_decide (s = "true") then Some (JBool true)
  else if bool_decide (s = "false") then Some (JBool false)
  else if bool_decide (s = "{}") then Some (JObj [])
  else if bool_decide (s = "[]") then Some (JArr [])
  else None.

Definition stringify (pl : JWTPayload) : string :=
  "{" +:+ String.concat ","
            (List.map (fun kv => fst kv +:+ ":" +:+ JSValue.toString (snd kv))
                      (map_to_list pl))
      +:+ "}".

Definition platform : Platform :=
  {| URL_parse := parse_url; JSON_parse := parse_json;
     JSON_stringify := stringify |}.

Definition claims_of (sub iss auth_method : string) (exp : Z) : JWTPayload :=
  list_to_map [("sub", JStr sub); ("iss", JStr iss); ("iat", JNum 1000);
               ("exp", JNum exp); ("jti", JStr "jti-1");
               ("auth_method", JStr auth_method)].

(** A header segment reads [alg] or [alg-kid1]; a payload segment is one of
    a few names; a signature is valid when it spells the key. *)
Definition decode_header (seg : string) : option JoseSpec.ProtectedHeader :=
  if bool_decide (seg = "RS256") then
    Some {| JoseSpec.alg := "RS256"; JoseSpec.kid := "test-key-1" |}
  else if bool_decide (seg = "HS256") then
    Some {| JoseSpec.alg := "HS256"; JoseSpec.kid := "test-key-1" |}
  else if bool_decide (seg = "none") then
    Some {| JoseSpec.alg := "none"; JoseSpec.kid := "test-key-1" |}
  else None.

Definition decode_payload (seg : string) : option JWTPayload :=
  if bool_decide (seg = "valid") then
    Some (claims_of "abc123pseudosub" "agentid" "bankid" 5000)
  else if bool_decide (seg = "expired") then
    Some (claims_of "abc123pseudosub" "agentid" "bankid" 1000)
  else if bool_decide (seg = "evil") then
    Some (claims_of "abc123pseudosub" "evil.com" "bankid" 5000)
  else if bool_decide (seg = "password") then
    Some (claims_of "abc123pseudosub" "agentid" "password" 5000)
  else if bool_decide (seg = "hacker") then
    Some (claims_of "hacker" "agentid" "bankid" 5000)
  else None.

Definition TEST_JWKS_URL : string := "https://localhost/api/jwks".

Definition primitives : JoseSpec.Primitives :=
  {| JoseSpec.PublicKey := string;
     JoseSpec.decodeProtectedHeader := decode_header;
     JoseSpec.decodePayload := decode_payload;
     JoseSpec.decodeSignature := Some;
     JoseSpec.verifySignature :=
       fun alg key _ sig => bool_decide (sig = key);
     JoseSpec.fetchJWKS :=
       fun endpoint _ =>
         if bool_decide (endpoint = TEST_JWKS_URL)
         then Some {[ "test-key-1" := "signed-by-test-key-1" ]}
         else None |}.

Definition jose_lib : Jose := @JoseSpec.jose_spec primitives.

Definition cold : @JoseSpec.State primitives :=
  {| JoseSpec.entries := []; JoseSpec.trace := [] |}.

(** The process just started, at time [now]. *)
Definition world (now : Z) : @World jose_lib :=
  @Build_World jose_lib now ∅ cold [].

Definition test_options : VerifyTokenOptions.t :=
  {| VerifyTokenOptions.jwksUrl := Some TEST_JWKS_URL;
     VerifyTokenOptions.clockTolerance := None |}.

Definition verify (token : string) (options : VerifyTokenOptions.t) (now : Z) :=
  @verifyAgentIDToken platform jose_lib token options (world now).

(** What a run threw, if it threw. *)
Definition thrown {A W} (r : (Exn + A) * W) : option Exn :=
  match r with (inl e, _) => Some e | (inr _, _) => None end.

Definition options_at (jwksUrl : string) (tolerance : option Z)
  : VerifyTokenOptions.t :=
  {| VerifyTokenOptions.jwksUrl := Some jwksUrl;
     VerifyTokenOptions.clockTolerance := tolerance |}.

(** An agent request carrying [token] as a Bearer token. *)
Definition agent_request (token : string) : NextRequest :=
  {| headers := h [("user-agent", "curl/7.88.1");
                   ("authorization", "Bearer " +:+ token)];
     url := "/api/data" |}.

Definition gate_options (block : option bool) : AgentIDMiddlewareOptions.t :=
  {| AgentIDMiddlewareOptions.jwksUrl := Some TEST_JWKS_URL;
     AgentIDMiddlewareOptions.blockUnauthorizedAgents := block;
     AgentIDMiddlewareOptions.clockTolerance := None;
     AgentIDMiddlewareOptions.onUnauthorizedAgent := None |}.

Definition gate (options : AgentIDMiddlewareOptions.t) (request : NextRequest)
    (now : Z) :=
  @createAgentIDMiddleware platform jose_lib options request (world now).

(** The same request with the three managed headers forged by the client. *)
Definition forge (request : NextRequest) : NextRequest :=
  {| headers := <["x-agentid-verified" := "true"]>
                (<["x-agentid-sub" := "admin"]>
                 (<["x-agentid-claims" := "{}"]> (headers request)));
     url := url request |}.

End Sample.

(** The process at start-up, and the worlds it can reach: the clock moves,
    tokens are verified, requests pass through the gate. *)

Definition initial_world `{Jose} (now : Z) (j : jose_state) : World :=
  {| clock := now; jwksSets := ∅; jose := j; console := [] |}.

Definition tick `{Jose} (now : Z) (w : World) : World :=
  {| clock := now; jwksSets := jwksSets w; jose := jose w;
     console := console w |}.

Inductive reachable `{Platform} `{Jose} : World -> Prop :=
| reachable_initial now j : reachable (initial_world now j)
| reachable_tick now w : reachable w -> reachable (tick now w)
| reachable_verify token options w :
    reachable w -> reachable (snd (verifyAgentIDToken token options w))
| reachable_request options request w :
    reachable w -> reachable (snd (createAgentIDMiddleware options request w)).

(** An endpoint the key-set cache accepts: it parses, and it is HTTPS or
    a loopback host. *)
Definition secure_endpoint `{Platform} (rawUrl : string) : Prop :=
  exists u, URL_parse rawUrl = Some u
            /\ (protocol u = "https:" \/ isLocal u = true).

(** The invariant of the module-level map [jwksSets]. *)
Definition jwks_inv `{Platform} `{Jose} (w : World) : Prop :=
  forall rawUrl set, jwksSets w !! rawUrl = Some set -> secure_endpoint rawUrl.

(** A computation keeps a property of the world. *)
Definition preserves `{Jose} {A} (P : World -> Prop) (m : M A) : Prop :=
  forall w, P w -> P (snd (m w)).

(** Two header sets that differ in the managed headers only. *)
Definition same_unmanaged (hs hs' : Headers) : Prop :=
  forall name, name ∉ MANAGED_HEADERS -> hs !! name = hs' !! name.

(** The options [createAgentIDMiddleware] hands to [verifyAgentIDToken]. *)
Definition verify_options (options : AgentIDMiddlewareOptions.t)
  : VerifyTokenOptions.t :=
  {| VerifyTokenOptions.jwksUrl := AgentIDMiddlewareOptions.jwksUrl options;
     VerifyTokenOptions.clockTolerance :=
       Some (JS.nullish (AgentIDMiddlewareOptions.clockTolerance options) 30) |}.

(** The verified path of the middleware, after [verifyAgentIDToken]
    returned the claims. *)
Definition inject `{Platform} `{Jose} (hs : Headers) (claims : AgentIDClaims)
  : M NextResponse :=
  bind (Headers_set hs "x-agentid-verified" "true") (fun hs1 =>
  bind (Headers_set hs1 "x-agentid-sub" (JSValue.toString_opt (claims !! "sub")))
       (fun hs2 =>
  bind (Headers_set hs2 "x-agentid-claims" (JSON_stringify claims)) (fun hs3 =>
  ret (NextResponse_next hs3)))).

(** The world after [console.warn] reported a failed verification. *)
Definition warned `{Jose} (err : Exn) (w : World) : World :=
  {| clock := clock w; jwksSets := jwksSets w; jose := jose w;
     console := console w ++
                ["[agent-id] Token verification failed: " +:+ message err] |}.


(** ** Notions used to state the further properties *)

(** [s] spells [p] up to the case of ASCII letters. *)
Fixpoint ci_match (p s : string) : bool :=
  match p, s with
  | EmptyString, EmptyString => true
  | String c p', String d s' => RegExp.ci_eqb c d && ci_match p' s'
  | _, _ => false
  end.

(** The last character of [s], or [prev] when [s] is empty. *)
Fixpoint last_or (prev : option ascii) (s : string) : option ascii :=
  match s with
  | EmptyString => prev
  | String c s' => last_or (Some c) s'
  end.

Fixpoint all_word_chars (s : string) : bool :=
  match s with
  | EmptyString => true
  | String c s' => RegExp.is_word_char c && all_word_chars s'
  end.

(** The 256 code units. *)
Definition all_ascii : list ascii := List.map ascii_of_nat (seq 0 256).

(** The header set the middleware forwards on the verified path, when the
    values are accepted by [Headers.set]. *)
Definition verified_headers `{Platform} (hs : Headers) (claims : AgentIDClaims)
  : Headers :=
  <["x-agentid-claims" := Hdr.normalize (JSON_stringify claims)]>
  (<["x-agentid-sub" := Hdr.normalize (JSValue.toString_opt (claims !! "sub"))]>
   (<["x-agentid-verified" := "true"]> hs)).

(** The endpoint [verifyAgentIDToken] uses. *)
Definition endpoint_of (options : VerifyTokenOptions.t) : string :=
  JS.nullish (VerifyTokenOptions.jwksUrl options) DEFAULT_JWKS_URL.

(** A later world of the same process: the clock moved, tokens were
    verified, requests passed through the gate. *)
Inductive evolves `{Platform} `{Jose} : World -> World -> Prop :=
| evolves_refl w : evolves w w
| evolves_tick now w w' : evolves w w' -> evolves w (tick now w')
| evolves_verify token options w w' :
    evolves w w' -> evolves w (snd (verifyAgentIDToken token options w'))
| evolves_request options request w w' :
    evolves w w' -> evolves w (snd (createAgentIDMiddleware options request w')).

(** A jose that accepts every token and returns a fixed payload: a stand-in
    for the runs that start after [jwtVerify] has succeeded. *)
Module SampleStub.

Definition jose_returning (pl : JWTPayload) : Jose :=
  {| jose_state := unit;
     RemoteJWKSet := unit;
     createRemoteJWKSet := fun _ _ st => (tt, st);
     jwtVerify := fun _ _ _ _ st => (inr pl, st) |}.

Definition world (pl : JWTPayload) (now : Z) : @World (jose_returning pl) :=
  @Build_World (jose_returning pl) now ∅ tt [].


End SampleStub.

(** Sample requests of the three kinds of traffic. *)
Module SampleTraffic.

(** A browser that also forges the managed headers. *)
Definition browser_request : NextRequest :=
  Sample.forge
    {| headers := h [("user-agent",
                      "Mozilla/5.0 (Windows NT 10.0; Win64; x64; rv:120.0) Gecko/20100101 Firefox/120.0");
                     ("accept-language", "en-US")];
       url := "/api/data" |}.

(** An agent without a token. *)
Definition tokenless_request : NextRequest :=
  {| headers := h [("user-agent", "curl/7.88.1")]; url := "/api/data" |}.

(** Claims whose [sub] holds a line feed, which no header value may. *)
Definition line_feed_sub : JWTPayload :=
  list_to_map [("sub", JStr ("abc" +:+ String (ascii_of_N 10) "def"));
               ("auth_method", JStr "bankid")].



End SampleTraffic.

(** A second sample platform, whose [JSON.parse] reads back what the sample
    [JSON.stringify] writes for the claims of the valid sample token. *)
Module SampleRoundTrip.

Definition valid_claims : JWTPayload :=
  Sample.claims_of "abc123pseudosub" "agentid" "bankid" 5000.

Definition valid_claims_json : json :=
  JObj (map_to_list valid_claims).

Definition parse_json (s : string) : option json :=
  if bool_decide (s = Sample.stringify valid_claims) then Some valid_claims_json
  else Sample.parse_json s.

Definition platform : Platform :=
  {| URL_parse := Sample.parse_url; JSON_parse := parse_json;
     JSON_stringify := Sample.stringify |}.

Definition gate (options : AgentIDMiddlewareOptions.t) (request : NextRequest)
    (now : Z) :=
  @createAgentIDMiddleware platform Sample.jose_lib options request
    (Sample.world now).

End SampleRoundTrip.

(** * Properties *)

(** ** Strings *)

Lemma truthy_true (s : string) : JS.truthy s = true <-> s <> "".
Proof. destruct s; simpl; split; congruence. Qed.

Lemma prefix_app (p r : string) : String.prefix p (p +:+ r) = true.
Proof.
  induction p as [|c p IH]; simpl.
  - by destruct r.
  - destruct (ascii_dec c c); [exact IH | congruence].
Qed.

Lemma prefix_inv (p s : string) :
  String.prefix p s = true -> exists r, s = p +:+ r.
Proof.
  revert s. induction p as [|c p IH]; intros s Hp.
  - by exists s.
  - destruct s as [|d s]; simpl in Hp; [discriminate|].
    destruct (ascii_dec c d) as [->|]; [|discriminate].
    destruct (IH _ Hp) as [r ->]. by exists r.
Qed.



Lemma slice_app (p r : string) : JS.slice (String.length p) (p +:+ r) = r.
Proof. induction p; simpl; [by destruct r | done]. Qed.



(** ** detect.ts *)

(** The test-suite of [detect.ts], replayed. *)

Example test_chrome_is_human :
  isAgentRequest
    (h [("user-agent",
         "Mozilla/5.0 (Macintosh; Intel Mac OS X 10_15_7) AppleWebKit/537.36 (KHTML, like Gecko) Chrome/121.0.0.0 Safari/537.36");
        ("accept-language", "en-US,en;q=0.9")]) = false.
Proof. vm_compute. reflexivity. Qed.

Example test_known_agents :
  forallb (fun ua => isAgentRequest (h [("user-agent", ua)]))
    [ "GPTBot/1.0"; "ChatGPT-User/1.0"; "ClaudeBot/1.0 (+https://anthropic.com)";
      "anthropic-ai/1.0"; "Googlebot/2.1"; "bingbot/2.0"; "PerplexityBot/1.0";
      "python-requests/2.31.0";
      "node-fetch/1.0 (+https://github.com/bitinn/node-fetch)";
      "axios/1.6.2"; "curl/7.88.1"; "wget/1.21.4"; "mcp-client/1.0" ] = true.
Proof. vm_compute. reflexivity. Qed.

Example test_missing_ua : isAgentRequest (h []) = true.
Proof. vm_compute. reflexivity. Qed.

Example test_empty_ua : isAgentRequest (h [("user-agent", "")]) = true.
Proof. vm_compute. reflexivity. Qed.

Example test_custom_ua_no_language :
  isAgentRequest (h [("user-agent", "MyCustomAgent/1.0")]) = true.
Proof. vm_compute. reflexivity. Qed.

Example test_custom_ua_with_language :
  isAgentRequest
    (h [("user-agent", "MyCustomAgent/1.0"); ("accept-language", "en")]) = false.
Proof. vm_compute. reflexivity. Qed.

Example test_bearer_token :
  extractToken (h [("authorization", "Bearer abc.def.ghi")]) = Some "abc.def.ghi".
Proof. vm_compute. reflexivity. Qed.

Example test_fallback_token :
  extractToken (h [("x-agentid-token", "abc.def.ghi")]) = Some "abc.def.ghi".
Proof. vm_compute. reflexivity. Qed.

Example test_bearer_preferred :
  extractToken (h [("authorization", "Bearer primary-token");
                   ("x-agentid-token", "fallback-token")]) = Some "primary-token".
Proof. vm_compute. reflexivity. Qed.

Example test_no_token : extractToken (h []) = None.
Proof. vm_compute. reflexivity. Qed.

Example test_bearer_empty : extractToken (h [("authorization", "Bearer ")]) = None.
Proof. vm_compute. reflexivity. Qed.

Example test_basic_scheme :
  extractToken (h [("authorization", "Basic dXNlcjpwYXNz")]) = None.
Proof. vm_compute. reflexivity. Qed.

Example test_fallback_trimmed :
  extractToken (h [("x-agentid-token", "  my.token.here  ")]) = Some "my.token.here".
Proof. vm_compute. reflexivity. Qed.

Lemma bearer_remainder (rest : string) :
  JS.startsWith ("Bearer " +:+ rest) "Bearer " = true /\
  JS.slice 7 ("Bearer " +:+ rest) = rest.
Proof. split; [apply prefix_app | apply (slice_app "Bearer ")]. Qed.

Lemma extractToken_bearer (headers : Headers) (rest : string) :
  Hdr.get headers "authorization" = Some ("Bearer " +:+ rest) ->
  extractToken headers =
    if JS.truthy (JS.trim rest) then Some (JS.trim rest)
    else let custom := JS.trim <$> Hdr.get headers "x-agentid-token" in
         if JS.truthy_opt custom then custom else None.
Proof.
  intros Hauth. unfold extractToken. rewrite Hauth.
  destruct (bearer_remainder rest) as [Hp Hs].
  cbn [JS.nullish]. rewrite Hp, Hs.
  by destruct (JS.truthy (JS.trim rest)).
Qed.

Lemma extractToken_no_bearer (headers : Headers) :
  (forall rest, Hdr.get headers "authorization" = Some ("Bearer " +:+ rest) ->
                JS.trim rest = "") ->
  extractToken headers =
    let custom := JS.trim <$> Hdr.get headers "x-agentid-token" in
    if JS.truthy_opt custom then custom else None.
Proof.
  intros Hno. destruct (Hdr.get headers "authorization") as [auth|] eqn:Hauth.
  - destruct (JS.startsWith auth "Bearer ") eqn:Hp.
    + apply prefix_inv in Hp as [rest ->].
      rewrite (extractToken_bearer _ _ Hauth), (Hno rest eq_refl). done.
    + unfold extractToken. rewrite Hauth. cbn [JS.nullish]. by rewrite Hp.
  - unfold extractToken. rewrite Hauth. done.
Qed.

(** The fallback header is consulted whenever the Authorization header
    yields no token, whatever the reason. *)
Lemma extractToken_fallback (headers : Headers) (custom : string) :
  (forall rest, Hdr.get headers "authorization" = Some ("Bearer " +:+ rest) ->
                JS.trim rest = "") ->
  Hdr.get headers "x-agentid-token" = Some custom ->
  JS.trim custom <> "" ->
  extractToken headers = Some (JS.trim custom).
Proof.
  intros Hno Hc Ht%truthy_true.
  rewrite (extractToken_no_bearer _ Hno), Hc. simpl. by rewrite Ht.
Qed.

(** Whatever [extractToken] returns is a non-empty string: the test
    [!token] of the middleware only ever sees [null]. *)
Lemma extractToken_truthy (headers : Headers) (token : string) :
  extractToken headers = Some token -> JS.truthy token = true.
Proof.
  unfold extractToken.
  destruct (JS.startsWith _ _).
  - destruct (JS.truthy (JS.trim _)) eqn:Ht; [by intros [= <-]|].
    destruct (Hdr.get headers "x-agentid-token") as [c|]; simpl; [|done].
    destruct (JS.truthy (JS.trim c)) eqn:Hc; [by intros [= <-] | done].
  - destruct (Hdr.get headers "x-agentid-token") as [c|]; simpl; [|done].
    destruct (JS.truthy (JS.trim c)) eqn:Hc; [by intros [= <-] | done].
Qed.

(** C7.  Token extraction.  When the Authorization header is ["Bearer "]
    (case-exact) followed by a remainder that is not empty after trimming,
    the trimmed remainder is returned, whatever the fallback header holds.
    When the remainder trims to the empty string, the trimmed fallback
    header is returned if it is not empty.  When neither header yields a
    token, none is returned; in particular a non-Bearer scheme alone yields
    none. *)
Theorem extractToken_precedence (headers : Headers) :
  (forall rest,
      Hdr.get headers "authorization" = Some ("Bearer " +:+ rest) ->
      JS.trim rest <> "" ->
      extractToken headers = Some (JS.trim rest))
  /\ (forall rest custom,
      Hdr.get headers "authorization" = Some ("Bearer " +:+ rest) ->
      JS.trim rest = "" ->
      Hdr.get headers "x-agentid-token" = Some custom ->
      JS.trim custom <> "" ->
      extractToken headers = Some (JS.trim custom))
  /\ ((forall rest,
        Hdr.get headers "authorization" = Some ("Bearer " +:+ rest) ->
        JS.trim rest = "") ->
      (forall custom,
        Hdr.get headers "x-agentid-token" = Some custom ->
        JS.trim custom = "") ->
      extractToken headers = None)
  /\ (forall auth,
      Hdr.get headers "authorization" = Some auth ->
      (forall rest, auth <> "Bearer " +:+ rest) ->
      Hdr.get headers "x-agentid-token" = None ->
      extractToken headers = None).
Proof.
  repeat split.
  - intros rest Hauth Hrest%truthy_true.
    by rewrite (extractToken_bearer _ _ Hauth), Hrest.
  - intros rest custom Hauth Hrest Hcustom Hc%truthy_true.
    rewrite (extractToken_bearer _ _ Hauth), Hrest, Hcustom. simpl.
    by rewrite Hc.
  - intros Hno Hfb. rewrite (extractToken_no_bearer _ Hno).
    destruct (Hdr.get headers "x-agentid-token") as [c|]; simpl; [|done].
    by rewrite (Hfb c eq_refl).
  - intros auth Hauth Hscheme Hfb.
    rewrite extractToken_no_bearer, Hfb; [done|].
    intros rest Hr. rewrite Hauth in Hr. injection Hr as ->.
    by destruct (Hscheme rest).
Qed.

Lemma extractToken_precedence_witness :
  extractToken (h [("authorization", "Bearer primary-token");
                   ("x-agentid-token", "fallback-token")]) = Some "primary-token"
  /\ extractToken (h [("authorization", "Bearer   ");
                      ("x-agentid-token", " fallback-token ")]) = Some "fallback-token"
  /\ extractToken (h [("authorization", "Bearer ");
                      ("x-agentid-token", "  ")]) = None
  /\ extractToken (h [("authorization", "Basic dXNlcjpwYXNz")]) = None.
Proof.
  split; [|split; [|split]].
  - apply (proj1 (extractToken_precedence _) "primary-token");
      [reflexivity | discriminate].
  - apply (proj1 (proj2 (extractToken_precedence _)) "  " " fallback-token ");
      [reflexivity | reflexivity | reflexivity | discriminate].
  - apply (proj1 (proj2 (proj2 (extractToken_precedence _)))).
    + intros rest Hr. vm_compute in Hr. injection Hr as <-. reflexivity.
    + intros custom Hc. vm_compute in Hc. injection Hc as <-. reflexivity.
  - apply (proj2 (proj2 (proj2 (extractToken_precedence _))) "Basic dXNlcjpwYXNz");
      [reflexivity | discriminate | reflexivity].
Defined.

(** What [isAgentRequest] does once the User-Agent is known to be non-empty
    and to match no automation signature. *)
Lemma isAgentRequest_unlisted (headers : Headers) (ua : string) :
  Hdr.get headers "user-agent" = Some ua ->
  ua <> "" ->
  existsb (fun p => test p ua) BOT_UA_PATTERNS = false ->
  isAgentRequest headers =
    negb (test BROWSER_UA_RE ua)
    && negb (JS.truthy_opt (Hdr.get headers "accept-language")).
Proof.
  intros Hua Hne%truthy_true Hbot. unfold isAgentRequest.
  rewrite Hua. cbn [JS.nullish]. rewrite Hne, Hbot. cbn [negb].
  by destruct (_ && _).
Qed.

(** C9, as amended.  For a non-empty User-Agent that matches no entry of
    the automation list: without the browser marker and without an
    Accept-Language header the request is classified as automated; with an
    Accept-Language header whose value is not empty it is classified as
    human. *)
Theorem isAgentRequest_tie_break (headers : Headers) (ua : string) :
  Hdr.get headers "user-agent" = Some ua ->
  ua <> "" ->
  existsb (fun p => test p ua) BOT_UA_PATTERNS = false ->
  (test BROWSER_UA_RE ua = false ->
   Hdr.get headers "accept-language" = None ->
   isAgentRequest headers = true)
  /\ (forall language,
       Hdr.get headers "accept-language" = Some language ->
       language <> "" ->
       isAgentRequest headers = false).
Proof.
  intros Hua Hne Hbot.
  rewrite (isAgentRequest_unlisted _ _ Hua Hne Hbot). split.
  - intros -> ->. reflexivity.
  - intros language -> Hl%truthy_true. simpl. rewrite Hl. apply andb_false_r.
Qed.

Lemma isAgentRequest_tie_break_witness :
  isAgentRequest (h [("user-agent", "MyCustomAgent/1.0")]) = true
  /\ isAgentRequest (h [("user-agent", "MyCustomAgent/1.0");
                        ("accept-language", "en")]) = false.
Proof.
  split.
  - apply (proj1 (isAgentRequest_tie_break
                    (h [("user-agent", "MyCustomAgent/1.0")])
                    "MyCustomAgent/1.0" eq_refl ltac:(discriminate) eq_refl));
      reflexivity.
  - apply (proj2 (isAgentRequest_tie_break
                    (h [("user-agent", "MyCustomAgent/1.0");
                        ("accept-language", "en")])
                    "MyCustomAgent/1.0" eq_refl ltac:(discriminate) eq_refl)
                 "en"); [reflexivity | discriminate].
Defined.

(** C9, as stated, fails: an Accept-Language header that is present with an
    empty value counts as absent, and the request is classified as
    automated. *)
Lemma isAgentRequest_empty_accept_language :
  let headers := h [("user-agent", "MyCustomAgent/1.0"); ("accept-language", "")] in
  Hdr.get headers "user-agent" = Some "MyCustomAgent/1.0"
  /\ existsb (fun p => test p "MyCustomAgent/1.0") BOT_UA_PATTERNS = false
  /\ Hdr.get headers "accept-language" = Some ""
  /\ isAgentRequest headers = true.
Proof. vm_compute. repeat split. Qed.

(** ** index.ts *)

(** C10.  [getAgentIDResult] is a total function.  When the verified flag
    is exactly ["true"] and the claims header is absent or does not parse as
    JSON, the result is unverified with reason [invalid_token].  When the
    verified flag is absent or is neither ["true"] nor ["false"], the result
    is unverified with reason [not_agent]. *)
Theorem getAgentIDResult_total `{Platform} (request : NextRequest) :
  (Hdr.get (headers request) "x-agentid-verified" = Some "true" ->
   (Hdr.get (headers request) "x-agentid-claims" = None
    \/ exists claimsJson,
         Hdr.get (headers request) "x-agentid-claims" = Some claimsJson
         /\ JSON_parse claimsJson = None) ->
   getAgentIDResult request = AgentIDUnverified invalid_token)
  /\ ((Hdr.get (headers request) "x-agentid-verified" = None
       \/ exists verified,
            Hdr.get (headers request) "x-agentid-verified" = Some verified
            /\ verified <> "true" /\ verified <> "false") ->
      getAgentIDResult request = AgentIDUnverified not_agent).
Proof.
  unfold getAgentIDResult. split.
  - intros -> Hclaims. rewrite bool_decide_eq_true_2 by done. cbn [negb].
    destruct Hclaims as [-> | (claimsJson & -> & Hparse)]; [done|].
    cbn [JS.truthy_opt JS.nullish]. rewrite Hparse.
    by destruct (negb _).
  - intros [-> | (verified & -> & Ht & Hf)]; [done|].
    rewrite !bool_decide_eq_false_2 by congruence. done.
Qed.

Lemma getAgentIDResult_total_witness :
  @getAgentIDResult Sample.platform
    {| headers := h [("x-agentid-verified", "true")]; url := "/api/data" |}
    = AgentIDUnverified invalid_token
  /\ @getAgentIDResult Sample.platform
    {| headers := h [("x-agentid-verified", "true"); ("x-agentid-claims", "{oops")];
       url := "/api/data" |}
    = AgentIDUnverified invalid_token
  /\ @getAgentIDResult Sample.platform
    {| headers := h [("x-agentid-verified", "yes")]; url := "/api/data" |}
    = AgentIDUnverified not_agent
  /\ @getAgentIDResult Sample.platform
    {| headers := h []; url := "/api/data" |}
    = AgentIDUnverified not_agent.
Proof.
  split; [|split; [|split]].
  - apply (proj1 (getAgentIDResult_total _)); [reflexivity | left; reflexivity].
  - apply (proj1 (getAgentIDResult_total _)); [reflexivity|].
    right. exists "{oops". split; reflexivity.
  - apply (proj2 (getAgentIDResult_total _)). right. exists "yes".
    repeat split; [discriminate | discriminate].
  - apply (proj2 (getAgentIDResult_total _)). left. reflexivity.
Defined.

(** ** verify.ts *)

Section GateProperties.

Context `{Platform} `{Jose}.

Lemma preserves_ret {A} (P : World -> Prop) (a : A) : preserves P (ret a).
Proof. by intros w. Qed.

Lemma preserves_throw {A} (P : World -> Prop) (e : Exn) :
  preserves P (@throw _ A e).
Proof. by intros w. Qed.

Lemma preserves_bind {A B} (P : World -> Prop) (m : M A) (k : A -> M B) :
  preserves P m -> (forall a, preserves P (k a)) -> preserves P (bind m k).
Proof.
  intros Hm Hk w Hw. unfold bind. specialize (Hm w Hw).
  destruct (m w) as [[e|a] w']; simpl in *; [done|]. by apply Hk.
Qed.

Lemma preserves_try_catch {A} (P : World -> Prop) (m : M A) (k : Exn -> M A) :
  preserves P m -> (forall e, preserves P (k e)) -> preserves P (try_catch m k).
Proof.
  intros Hm Hk w Hw. unfold try_catch. specialize (Hm w Hw).
  destruct (m w) as [[e|a] w']; simpl in *; [|done]. by apply Hk.
Qed.

Lemma preserves_Headers_set (P : World -> Prop) (hs : Headers) (name value : string) :
  preserves P (Headers_set hs name value).
Proof.
  unfold Headers_set. destruct (Hdr.set _ _ _);
    [apply preserves_ret | apply preserves_throw].
Qed.

Lemma preserves_console_warn (line : string) : preserves jwks_inv (console_warn line).
Proof. by intros w. Qed.

Lemma preserves_call_jwtVerify token JWKS options :
  preserves jwks_inv (call_jwtVerify token JWKS options).
Proof.
  intros w Hw. unfold call_jwtVerify. by destruct (jwtVerify _ _ _ _ _).
Qed.

Lemma isLocal_spec (u : URL) :
  isLocal u = true <->
  hostname u = "localhost" \/ hostname u = "127.0.0.1" \/ hostname u = "::1".
Proof.
  unfold isLocal. rewrite !orb_true_iff, !bool_decide_eq_true. tauto.
Qed.

Lemma preserves_getJwks rawUrl : preserves jwks_inv (getJwks rawUrl).
Proof.
  intros w Hw. unfold getJwks.
  destruct (jwksSets w !! rawUrl) as [set|] eqn:Hc; [done|].
  destruct (URL_parse rawUrl) as [u|] eqn:Hu; [|done].
  destruct (negb (bool_decide (protocol u = "https:")) && negb (isLocal u))
    eqn:Hsec; [done|].
  destruct (createRemoteJWKSet _ _ _) as [set j]. simpl.
  intros rawUrl' set'. simpl. rewrite lookup_insert.
  destruct (decide (rawUrl = rawUrl')) as [<-|Hne];
    [|intros Hl; exact (Hw _ _ Hl)].
  intros _. exists u. split; [done|].
  apply andb_false_iff in Hsec as [Hs|Hs]; apply negb_false_iff in Hs.
  - left. by apply bool_decide_eq_true in Hs.
  - by right.
Qed.

Lemma preserves_verifyAgentIDToken token options :
  preserves jwks_inv (verifyAgentIDToken token options).
Proof.
  unfold verifyAgentIDToken.
  apply preserves_bind; [apply preserves_getJwks|]. intros JWKS.
  apply preserves_bind; [apply preserves_call_jwtVerify|]. intros payload.
  repeat case_match; (apply preserves_ret || apply preserves_throw).
Qed.

Lemma preserves_unauthorized (P : World -> Prop) request hs msg block cb :
  preserves P (unauthorized request hs msg block cb).
Proof.
  unfold unauthorized.
  destruct (match cb with Some callback => callback request msg | None => None end);
    [apply preserves_ret|].
  destruct block; [apply preserves_ret|].
  apply preserves_bind; [apply preserves_Headers_set|].
  intros ?. apply preserves_ret.
Qed.

Lemma preserves_createAgentIDMiddleware options request :
  preserves jwks_inv (createAgentIDMiddleware options request).
Proof.
  unfold createAgentIDMiddleware. cbv zeta.
  destruct (negb (isAgentRequest _)); [apply preserves_ret|].
  destruct (negb (JS.truthy_opt _)); [apply preserves_unauthorized|].
  apply preserves_bind.
  - apply preserves_try_catch.
    + apply preserves_bind; [apply preserves_verifyAgentIDToken|].
      intros claims. apply preserves_ret.
    + intros e. apply preserves_bind; [apply preserves_console_warn|].
      intros _. apply preserves_bind; [apply preserves_unauthorized|].
      intros response. apply preserves_ret.
  - intros [response|claims]; [apply preserves_ret|].
    repeat (apply preserves_bind; [apply preserves_Headers_set|]; intros ?).
    apply preserves_ret.
Qed.

(** Every entry of the cache of a running process passed the check of
    [getJwks]. *)
Lemma reachable_jwks_inv (w : World) : reachable w -> jwks_inv w.
Proof.
  induction 1 as [now j|now w _ IH|token options w _ IH|options request w _ IH].
  - intros rawUrl set. simpl. by rewrite lookup_empty.
  - exact IH.
  - by apply preserves_verifyAgentIDToken.
  - by apply preserves_createAgentIDMiddleware.
Qed.

End GateProperties.

Section VerifierProperties.

Context `{Platform} `{Jose}.

Lemma getJwks_fresh_insecure (w : World) (rawUrl : string) (u : URL) :
  jwksSets w !! rawUrl = None ->
  URL_parse rawUrl = Some u ->
  protocol u <> "https:" ->
  isLocal u = false ->
  getJwks rawUrl w =
    (inl (Error ("[agent-id] jwksUrl must use HTTPS, received: " +:+ rawUrl)), w).
Proof.
  intros Hc Hu Hp Hl. unfold getJwks. rewrite Hc, Hu, Hl.
  by rewrite bool_decide_eq_false_2.
Qed.

Lemma insecure_not_cached (w : World) (rawUrl : string) :
  jwks_inv w -> ~ secure_endpoint rawUrl -> jwksSets w !! rawUrl = None.
Proof.
  intros Hinv Hns. destruct (jwksSets w !! rawUrl) as [set|] eqn:Hc; [|done].
  destruct Hns. by eapply Hinv.
Qed.

(** C6.  In a running process, a [jwksUrl] whose scheme is not HTTPS and
    whose host is none of localhost, 127.0.0.1, ::1 makes [getJwks], and so
    [verifyAgentIDToken], throw the HTTPS-required error and leave the
    world as it was: jose is not called, nothing is fetched.  An http URL
    on localhost is accepted.  A string that does not parse as a URL makes
    [getJwks] throw the [TypeError] of [new URL]. *)
Theorem getJwks_https_required (w : World) (rawUrl : string) :
  reachable w ->
  (forall u,
      URL_parse rawUrl = Some u ->
      protocol u <> "https:" ->
      hostname u <> "localhost" /\ hostname u <> "127.0.0.1"
      /\ hostname u <> "::1" ->
      let err := Error ("[agent-id] jwksUrl must use HTTPS, received: " +:+ rawUrl) in
      getJwks rawUrl w = (inl err, w)
      /\ forall token tolerance,
          verifyAgentIDToken token
            {| VerifyTokenOptions.jwksUrl := Some rawUrl;
               VerifyTokenOptions.clockTolerance := tolerance |} w
          = (inl err, w))
  /\ (forall u,
      URL_parse rawUrl = Some u ->
      protocol u = "http:" ->
      hostname u = "localhost" ->
      exists set w', getJwks rawUrl w = (inr set, w'))
  /\ (URL_parse rawUrl = None ->
      getJwks rawUrl w = (inl (TypeError "Invalid URL"), w)).
Proof.
  intros Hinv%reachable_jwks_inv. split; [|split].
  - intros u Hu Hp Hh err.
    assert (Hl : isLocal u = false).
    { apply not_true_is_false. rewrite isLocal_spec. tauto. }
    assert (Hfresh : jwksSets w !! rawUrl = None).
    { apply insecure_not_cached; [done|]. intros (u' & Hu' & Hs).
      assert (u' = u) as -> by congruence. destruct Hs; congruence. }
    pose proof (getJwks_fresh_insecure w rawUrl u Hfresh Hu Hp Hl) as Hget.
    split; [exact Hget|]. intros token tolerance.
    unfold verifyAgentIDToken, bind. cbn [JS.nullish VerifyTokenOptions.jwksUrl].
    by rewrite Hget.
  - intros u Hu Hp Hh. unfold getJwks.
    destruct (jwksSets w !! rawUrl) as [set|]; [by eauto|].
    rewrite Hu. assert (isLocal u = true) as -> by (apply isLocal_spec; tauto).
    rewrite andb_false_r. destruct (createRemoteJWKSet _ _ _). by eauto.
  - intros Hu. unfold getJwks.
    rewrite insecure_not_cached; [by rewrite Hu|done|].
    intros (u & Hu' & _). congruence.
Qed.




End VerifierProperties.

Lemma getJwks_https_required_witness :
  @getJwks Sample.platform Sample.jose_lib
    "http://attacker.com/api/jwks" (Sample.world 0)
  = (inl (Error "[agent-id] jwksUrl must use HTTPS, received: http://attacker.com/api/jwks"),
     Sample.world 0)
  /\ (exists set w',
        @getJwks Sample.platform Sample.jose_lib
          "http://localhost:3000/api/jwks" (Sample.world 0) = (inr set, w'))
  /\ @getJwks Sample.platform Sample.jose_lib "not a url" (Sample.world 0)
     = (inl (TypeError "Invalid URL"), Sample.world 0).
Proof.
  pose proof (@reachable_initial Sample.platform Sample.jose_lib 0 Sample.cold)
    as Hr.
  split; [|split].
  - apply (proj1 (@getJwks_https_required Sample.platform Sample.jose_lib
                    _ "http://attacker.com/api/jwks" Hr)
             {| protocol := "http:"; hostname := "attacker.com";
                href := "http://attacker.com/api/jwks" |});
      [reflexivity | discriminate | repeat split; discriminate].
  - apply (proj1 (proj2 (@getJwks_https_required Sample.platform Sample.jose_lib
                           _ "http://localhost:3000/api/jwks" Hr))
             {| protocol := "http:"; hostname := "localhost";
                href := "http://localhost:3000/api/jwks" |});
      reflexivity.
  - apply (proj2 (proj2 (@getJwks_https_required Sample.platform Sample.jose_lib
                           _ "not a url" Hr))).
    reflexivity.
Defined.


(** ** middleware.ts *)

Lemma strip_managed_lookup (hs : Headers) (name : string) :
  strip_managed hs !! name =
    if bool_decide (name ∈ MANAGED_HEADERS) then None else hs !! name.
Proof.
  unfold strip_managed, MANAGED_HEADERS, Hdr.delete. cbn [fold_left].
  case_bool_decide as Hin.
  - rewrite !elem_of_cons, elem_of_nil in Hin.
    destruct Hin as [->|[->|[->|[]]]]; by rewrite !lookup_delete.
  - rewrite !lookup_delete_ne; [done|..];
      intros <-; apply Hin; rewrite !elem_of_cons; tauto.
Qed.

Lemma strip_managed_same (hs hs' : Headers) :
  same_unmanaged hs hs' -> strip_managed hs = strip_managed hs'.
Proof.
  intros Hsame. apply map_eq. intros name. rewrite !strip_managed_lookup.
  case_bool_decide; [done|]. by apply Hsame.
Qed.

Section MiddlewareProperties.

Context `{Platform} `{Jose}.

(** The ways through the middleware. *)
Lemma createAgentIDMiddleware_cases
    (options : AgentIDMiddlewareOptions.t) (request : NextRequest) (w : World) :
  let hs := strip_managed (headers request) in
  let block :=
    JS.nullish (AgentIDMiddlewareOptions.blockUnauthorizedAgents options) true in
  let cb := AgentIDMiddlewareOptions.onUnauthorizedAgent options in
  createAgentIDMiddleware options request w =
    if negb (isAgentRequest hs) then (inr (NextResponse_next hs), w)
    else match extractToken hs with
         | None => unauthorized request hs MISSING_TOKEN_MESSAGE block cb w
         | Some token =>
             match verifyAgentIDToken token (verify_options options) w with
             | (inr claims, w') => inject hs claims w'
             | (inl err, w') =>
                 unauthorized request hs INVALID_TOKEN_MESSAGE block cb
                   (warned err w')
             end
         end.
Proof.
  intros hs block cb. unfold createAgentIDMiddleware. fold hs block cb.
  destruct (isAgentRequest hs); [|done]. cbn [negb].
  destruct (extractToken hs) as [token|] eqn:Htok; [|done].
  cbn [JS.truthy_opt JS.nullish].
  rewrite (extractToken_truthy _ _ Htok). cbn [negb].
  unfold try_catch, bind at 1 2. fold (verify_options options).
  destruct (verifyAgentIDToken token (verify_options options) w)
    as [[err|claims] w'] eqn:Hv.
  - unfold bind, console_warn. fold (warned err w').
    by destruct (unauthorized _ _ _ _ _ _) as [[e|r] w''].
  - reflexivity.
Qed.

(** The response of [unauthorized], by cases. *)
Lemma unauthorized_cases (request : NextRequest) (hs : Headers) (msg : string)
    (block : bool) (cb : option (NextRequest -> string -> option NextResponse))
    (w : World) :
  unauthorized request hs msg block cb w =
    (inr match match cb with Some callback => callback request msg | None => None end with
         | Some custom => custom
         | None =>
             if block then
               NextResponse_json
                 (JObj [("error", JStr "AGENT_UNAUTHORIZED"); ("message", JStr msg)])
                 403
             else NextResponse_next (<["x-agentid-verified" := "false"]> hs)
         end, w).
Proof.
  unfold unauthorized.
  destruct (match cb with Some callback => callback request msg | None => None end);
    [done|].
  by destruct block.
Qed.


Lemma unauthorized_not_verified (request : NextRequest) (hs hs' : Headers)
    (msg : string) (block : bool)
    (cb : option (NextRequest -> string -> option NextResponse)) (w w' : World) :
  unauthorized request hs msg block cb w = (inr (NextResponse_next hs'), w') ->
  hs' !! "x-agentid-verified" = Some "true" ->
  exists callback, cb = Some callback
                   /\ callback request msg = Some (NextResponse_next hs').
Proof.
  rewrite unauthorized_cases. intros [= Hr _] Htrue.
  destruct cb as [callback|].
  - destruct (callback request msg) as [custom|] eqn:Hcb.
    + subst custom. by exists callback.
    + destruct block; [discriminate|]. injection Hr as <-.
      by rewrite lookup_insert_eq in Htrue.
  - destruct block; [discriminate|]. injection Hr as <-.
    by rewrite lookup_insert_eq in Htrue.
Qed.

(** The gate with any override callback.  The managed headers are deleted
    from the clone before anything else happens: the clone holds none of
    them, and two requests that differ only in the values a client gave to
    these headers are treated alike when the callback answers alike.  A
    forwarded header set carries [x-agentid-verified: true] only if
    [verifyAgentIDToken] accepted the extracted token or the
    [onUnauthorizedAgent] callback built the response, which the middleware
    returns as it is. *)
Theorem middleware_no_spoofing
    (options : AgentIDMiddlewareOptions.t) (request : NextRequest) (w : World) :
  (forall name, name ∈ MANAGED_HEADERS ->
                strip_managed (headers request) !! name = None)
  /\ (forall request',
        same_unmanaged (headers request) (headers request') ->
        (forall callback msg,
            AgentIDMiddlewareOptions.onUnauthorizedAgent options = Some callback ->
            callback request' msg = callback request msg) ->
        createAgentIDMiddleware options request' w
        = createAgentIDMiddleware options request w)
  /\ (forall hs w',
        createAgentIDMiddleware options request w = (inr (NextResponse_next hs), w') ->
        hs !! "x-agentid-verified" = Some "true" ->
        (exists callback msg,
            AgentIDMiddlewareOptions.onUnauthorizedAgent options = Some callback
            /\ callback request msg = Some (NextResponse_next hs))
        \/ (exists token claims w0,
              extractToken (strip_managed (headers request)) = Some token
              /\ verifyAgentIDToken token (verify_options options) w
                 = (inr claims, w0))).
Proof.
  split; [|split].
  - intros name Hin. rewrite strip_managed_lookup.
    by rewrite bool_decide_eq_true_2.
  - intros request' Hsame Hcb. rewrite !createAgentIDMiddleware_cases. cbv zeta.
    rewrite <- (strip_managed_same _ _ Hsame).
    rewrite !unauthorized_cases.
    destruct (AgentIDMiddlewareOptions.onUnauthorizedAgent options)
      as [callback|] eqn:Hopt.
    + rewrite !(Hcb callback _ eq_refl).
      repeat case_match; try done; rewrite !unauthorized_cases;
        by rewrite !(Hcb callback _ eq_refl).
    + repeat case_match; try done; by rewrite !unauthorized_cases.
  - intros hs w' Hmw Htrue. rewrite createAgentIDMiddleware_cases in Hmw.
    cbv zeta in Hmw.
    destruct (isAgentRequest _).
    2:{ injection Hmw as <- _. rewrite strip_managed_lookup in Htrue.
        by rewrite bool_decide_eq_true_2 in Htrue by apply list_elem_of_here. }
    cbn [negb] in Hmw.
    destruct (extractToken _) as [token|] eqn:Htok.
    + destruct (verifyAgentIDToken _ _ _) as [[err|claims] w0] eqn:Hv.
      * left. destruct (unauthorized_not_verified _ _ _ _ _ _ _ _ Hmw Htrue)
          as (callback & Hcb & Hres). by exists callback, INVALID_TOKEN_MESSAGE.
      * right. by exists token, claims, w0.
    + left. destruct (unauthorized_not_verified _ _ _ _ _ _ _ _ Hmw Htrue)
        as (callback & Hcb & Hres). by exists callback, MISSING_TOKEN_MESSAGE.
Qed.

(** C3.  Two agent requests whose tokens both fail verification, for
    whatever reasons: in blocking mode, when no override callback answers,
    both get the same response, status 403 with the fixed error code and
    the generic message; an override callback is handed the generic message
    and nothing else about the failure; and for one and the same request
    the response does not depend on which check failed. *)
Theorem invalid_token_uniform
    (options : AgentIDMiddlewareOptions.t) (request1 request2 : NextRequest)
    (token1 token2 : string) (err1 err2 : Exn) (w1 w1' w2 w2' : World) :
  isAgentRequest (strip_managed (headers request1)) = true ->
  isAgentRequest (strip_managed (headers request2)) = true ->
  extractToken (strip_managed (headers request1)) = Some token1 ->
  extractToken (strip_managed (headers request2)) = Some token2 ->
  verifyAgentIDToken token1 (verify_options options) w1 = (inl err1, w1') ->
  verifyAgentIDToken token2 (verify_options options) w2 = (inl err2, w2') ->
  ((forall callback,
       AgentIDMiddlewareOptions.onUnauthorizedAgent options = Some callback ->
       callback request1 "Invalid or expired AgentID token." = None
       /\ callback request2 "Invalid or expired AgentID token." = None) ->
   JS.nullish (AgentIDMiddlewareOptions.blockUnauthorizedAgents options) true = true ->
   let rejection :=
     NextResponse_json
       (JObj [("error", JStr "AGENT_UNAUTHORIZED");
              ("message", JStr "Invalid or expired AgentID token.")]) 403 in
   fst (createAgentIDMiddleware options request1 w1) = inr rejection
   /\ fst (createAgentIDMiddleware options request2 w2) = inr rejection)
  /\ (forall callback custom,
        AgentIDMiddlewareOptions.onUnauthorizedAgent options = Some callback ->
        callback request1 "Invalid or expired AgentID token." = Some custom ->
        fst (createAgentIDMiddleware options request1 w1) = inr custom)
  /\ (request1 = request2 ->
      fst (createAgentIDMiddleware options request1 w1)
      = fst (createAgentIDMiddleware options request2 w2)).
Proof.
  intros Ha1 Ha2 Ht1 Ht2 Hv1 Hv2.
  rewrite !createAgentIDMiddleware_cases. cbv zeta.
  rewrite Ha1, Ha2, Ht1, Ht2, Hv1, Hv2. cbn [negb].
  rewrite !unauthorized_cases. cbn [fst]. split; [|split].
  - intros Hdecline ->. unfold INVALID_TOKEN_MESSAGE.
    destruct (AgentIDMiddlewareOptions.onUnauthorizedAgent options)
      as [callback|]; [|done].
    destruct (Hdecline callback eq_refl) as [-> ->]. done.
  - intros callback custom -> Hcb. unfold INVALID_TOKEN_MESSAGE. by rewrite Hcb.
  - by intros ->.
Qed.

(** In non-blocking mode and without an override, an agent request with no
    token and an agent request with a token that fails verification are
    forwarded with the same marker, and [getAgentIDResult] reads [no_token]
    from both. *)
Lemma nonblocking_reads_no_token
    (options : AgentIDMiddlewareOptions.t) (request : NextRequest) (w : World) :
  AgentIDMiddlewareOptions.blockUnauthorizedAgents options = Some false ->
  AgentIDMiddlewareOptions.onUnauthorizedAgent options = None ->
  isAgentRequest (strip_managed (headers request)) = true ->
  (extractToken (strip_managed (headers request)) = None
   \/ exists token err w',
        extractToken (strip_managed (headers request)) = Some token
        /\ verifyAgentIDToken token (verify_options options) w = (inl err, w')) ->
  exists response,
    fst (createAgentIDMiddleware options request w) = inr response
    /\ getAgentIDResult <$> downstream request response
       = Some (AgentIDUnverified no_token).
Proof.
  intros Hblock Hcb Hagent Hfail.
  rewrite createAgentIDMiddleware_cases. cbv zeta.
  rewrite Hagent, Hblock, Hcb. cbn [negb JS.nullish].
  destruct Hfail as [-> | (token & err & w' & -> & ->)];
    rewrite unauthorized_cases; cbn [fst]; eexists; (split; [reflexivity|]);
    cbn; unfold getAgentIDResult, Hdr.get; cbn [headers];
    rewrite lookup_insert_eq; done.
Qed.

End MiddlewareProperties.

Lemma same_unmanaged_forge (request : NextRequest) :
  same_unmanaged (headers request) (headers (Sample.forge request)).
Proof.
  intros name Hn. unfold Sample.forge. cbn [headers].
  rewrite !lookup_insert_ne; [done|..];
    intros <-; apply Hn; unfold MANAGED_HEADERS; rewrite !elem_of_cons; tauto.
Qed.

Lemma middleware_no_spoofing_witness :
  let request := Sample.agent_request "RS256.valid.signed-by-test-key-1" in
  let options := Sample.gate_options None in
  strip_managed (headers (Sample.forge request)) !! "x-agentid-verified" = None
  /\ Sample.gate options (Sample.forge request) 2000
     = Sample.gate options request 2000
  /\ ((exists callback msg,
         AgentIDMiddlewareOptions.onUnauthorizedAgent options = Some callback
         /\ callback request msg
            = Some (NextResponse_next
                      (<["x-agentid-claims" :=
                           Sample.stringify
                             (Sample.claims_of "abc123pseudosub" "agentid" "bankid" 5000)]>
                       (<["x-agentid-sub" := "abc123pseudosub"]>
                        (<["x-agentid-verified" := "true"]>
                         (strip_managed (headers request)))))))
      \/ (exists token claims w0,
            extractToken (strip_managed (headers request)) = Some token
            /\ @verifyAgentIDToken Sample.platform Sample.jose_lib token
                 (verify_options options) (Sample.world 2000)
               = (inr claims, w0))).
Proof.
  intros request options. split; [|split].
  - apply (proj1 (@middleware_no_spoofing Sample.platform Sample.jose_lib
                    options (Sample.forge request) (Sample.world 2000))).
    apply list_elem_of_here.
  - apply (proj1 (proj2 (@middleware_no_spoofing Sample.platform Sample.jose_lib
                           options request (Sample.world 2000)))).
    + apply same_unmanaged_forge.
    + intros callback msg Hcb. discriminate Hcb.
  - apply (proj2 (proj2 (@middleware_no_spoofing Sample.platform Sample.jose_lib
                           options request (Sample.world 2000)))
             (<["x-agentid-claims" :=
                  Sample.stringify
                    (Sample.claims_of "abc123pseudosub" "agentid" "bankid" 5000)]>
              (<["x-agentid-sub" := "abc123pseudosub"]>
               (<["x-agentid-verified" := "true"]>
                (strip_managed (headers request)))))
             (snd (Sample.gate options request 2000))).
    + reflexivity.
    + reflexivity.
Defined.

Lemma invalid_token_uniform_witness :
  let rejection :=
    NextResponse_json
      (JObj [("error", JStr "AGENT_UNAUTHORIZED");
             ("message", JStr "Invalid or expired AgentID token.")]) 403 in
  fst (Sample.gate (Sample.gate_options None)
         (Sample.agent_request "RS256.expired.signed-by-test-key-1") 2000)
    = inr rejection
  /\ fst (Sample.gate (Sample.gate_options None)
            (Sample.agent_request "none.hacker.") 2000)
    = inr rejection.
Proof.
  intros rejection.
  refine (proj1 (@invalid_token_uniform Sample.platform Sample.jose_lib
                   (Sample.gate_options None)
                   (Sample.agent_request "RS256.expired.signed-by-test-key-1")
                   (Sample.agent_request "none.hacker.")
                   "RS256.expired.signed-by-test-key-1" "none.hacker."
                   (JOSEError TokenExpired "TokenExpired")
                   (JOSEError AlgorithmRejected "AlgorithmRejected")
                   (Sample.world 2000) _ (Sample.world 2000) _
                   _ _ _ _ _ _) _ _);
    try reflexivity.
  intros callback Hcb. discriminate Hcb.
Defined.

(** C4 fails on the code: in non-blocking mode an agent request whose token
    fails verification (here a malformed one) is forwarded with
    [x-agentid-verified: false], from which [getAgentIDResult] reads
    [no_token], not [invalid_token]; the console shows that the token was
    seen and refused. *)
Theorem nonblocking_invalid_token_reads_no_token :
  let request := Sample.agent_request "not.a.jwt" in
  match Sample.gate (Sample.gate_options (Some false)) request 2000 with
  | (inr response, w) =>
      Some (@getAgentIDResult Sample.platform <$> downstream request response,
            console w)
  | _ => None
  end
  = Some (Some (AgentIDUnverified no_token),
          ["[agent-id] Token verification failed: MalformedToken"]).
Proof. vm_compute. reflexivity. Qed.

(** The test-suite of [verify.ts], replayed on the sample runtime. *)

Example test_valid_token :
  Sample.thrown
    (Sample.verify "RS256.valid.signed-by-test-key-1" Sample.test_options 2000)
  = None.
Proof. vm_compute. reflexivity. Qed.

Example test_wrong_issuer :
  Sample.thrown
    (Sample.verify "RS256.evil.signed-by-test-key-1" Sample.test_options 2000)
  = Some (JOSEError IssuerMismatch "IssuerMismatch").
Proof. vm_compute. reflexivity. Qed.

Example test_expired_token :
  Sample.thrown
    (Sample.verify "RS256.expired.signed-by-test-key-1"
       (Sample.options_at Sample.TEST_JWKS_URL (Some 0)) 1120)
  = Some (JOSEError TokenExpired "TokenExpired").
Proof. vm_compute. reflexivity. Qed.

Example test_non_https_jwksUrl :
  Sample.thrown
    (Sample.verify "RS256.valid.signed-by-test-key-1"
       (Sample.options_at "http://attacker.com/api/jwks" None) 2000)
  = Some (Error "[agent-id] jwksUrl must use HTTPS, received: http://attacker.com/api/jwks").
Proof. vm_compute. reflexivity. Qed.

Example test_localhost_jwksUrl :
  Sample.thrown
    (Sample.verify "RS256.valid.signed-by-test-key-1"
       (Sample.options_at "http://localhost:3000/api/jwks" None) 2000)
  = Some (JOSEError NetworkFailure "NetworkFailure").
Proof. vm_compute. reflexivity. Qed.

Example test_malformed_token :
  Sample.thrown (Sample.verify "not.a.jwt" Sample.test_options 2000)
  = Some (JOSEError MalformedToken "MalformedToken")
  /\ Sample.thrown (Sample.verify "" Sample.test_options 2000)
     = Some (JOSEError MalformedToken "MalformedToken").
Proof. vm_compute. split; reflexivity. Qed.

Example test_alg_none :
  Sample.thrown (Sample.verify "none.hacker." Sample.test_options 2000)
  = Some (JOSEError AlgorithmRejected "AlgorithmRejected").
Proof. vm_compute. reflexivity. Qed.

(** ** Inside [jwtVerify]: the algorithm allowlist and the expiry check

    These are settled on the model of jose that follows the
    specification. *)

Section SpecModel.

Context `{Platform} {prims : JoseSpec.Primitives}.

Lemma getJwks_spec_frame (rawUrl : string) (w : SpecWorld) :
  let w' := snd (@getJwks _ JoseSpec.jose_spec rawUrl w) in
  clock w' = clock w /\ JoseSpec.trace (jose w') = JoseSpec.trace (jose w).
Proof.
  unfold getJwks. repeat case_match; try done.
  cbn [createRemoteJWKSet JoseSpec.jose_spec] in *.
  unfold JoseSpec.createRemoteJWKSet_spec in *. by simplify_eq/=.
Qed.

Lemma parseToken_header (token hseg pseg sseg : string)
    (hd : JoseSpec.ProtectedHeader) (t : JoseSpec.ParsedToken) :
  JoseSpec.split_dots token = [hseg; pseg; sseg] ->
  JoseSpec.decodeProtectedHeader hseg = Some hd ->
  JoseSpec.parseToken token = Some t ->
  JoseSpec.protected t = hd.
Proof.
  intros Hs Hd. unfold JoseSpec.parseToken. rewrite Hs, Hd.
  repeat case_match; try done. by intros [= <-].
Qed.

(** A token whose header declares an algorithm outside the allowlist is
    refused by [jwsVerify] with the state untouched. *)
Lemma jwsVerify_algorithm (token hseg pseg sseg : string)
    (hd : JoseSpec.ProtectedHeader) (algorithms : list string)
    (handle : nat) (now : Z) (st : JoseSpec.State) :
  JoseSpec.split_dots token = [hseg; pseg; sseg] ->
  JoseSpec.decodeProtectedHeader hseg = Some hd ->
  JoseSpec.alg hd ∉ algorithms ->
  JoseSpec.jwsVerify token handle algorithms now st
  = (inl (match JoseSpec.parseToken token with
          | Some _ => JOSEError AlgorithmRejected "AlgorithmRejected"
          | None => JOSEError MalformedToken "MalformedToken"
          end), st).
Proof.
  intros Hs Hd Halg. unfold JoseSpec.jwsVerify.
  destruct (JoseSpec.parseToken token) as [t|] eqn:Hp; [|done].
  rewrite (parseToken_header _ _ _ _ _ _ Hs Hd Hp).
  by rewrite bool_decide_eq_false_2.
Qed.

(** C1.  A token whose protected header declares any algorithm other than
    ["RS256"] makes [verifyAgentIDToken] fail, whatever its claims and its
    signature segment are, and the trace of jose is what it was before the
    call: no key was looked up, nothing was fetched and no signature was
    verified.  When the key set is at hand and the three segments decode,
    the failure is the rejection of the algorithm. *)
Theorem algorithm_allowlist (token hseg pseg sseg : string)
    (hd : JoseSpec.ProtectedHeader) (options : VerifyTokenOptions.t)
    (w : SpecWorld) :
  JoseSpec.split_dots token = [hseg; pseg; sseg] ->
  JoseSpec.decodeProtectedHeader hseg = Some hd ->
  JoseSpec.alg hd <> "RS256" ->
  exists err w',
    @verifyAgentIDToken _ JoseSpec.jose_spec token options w = (inl err, w')
    /\ JoseSpec.trace (jose w') = JoseSpec.trace (jose w)
    /\ (forall JWKS w1,
          @getJwks _ JoseSpec.jose_spec
            (JS.nullish (VerifyTokenOptions.jwksUrl options) DEFAULT_JWKS_URL) w
            = (inr JWKS, w1) ->
          is_Some (JoseSpec.parseToken token) ->
          err = JOSEError AlgorithmRejected "AlgorithmRejected").
Proof.
  intros Hs Hd Halg.
  assert (Hnot : JoseSpec.alg hd ∉ ["RS256"]).
  { rewrite elem_of_cons, elem_of_nil. tauto. }
  pose proof (getJwks_spec_frame
                (JS.nullish (VerifyTokenOptions.jwksUrl options) DEFAULT_JWKS_URL) w)
    as [_ Htrace].
  unfold verifyAgentIDToken, bind.
  destruct (getJwks _ w) as [[err|JWKS] w1] eqn:Hget; cbn [snd] in Htrace.
  - exists err, w1. split; [done|]. split; [done|]. intros ? ? [=].
  - unfold call_jwtVerify. cbn [jwtVerify JoseSpec.jose_spec].
    unfold JoseSpec.jwtVerify_spec. cbn [JWTVerifyOptions.algorithms].
    rewrite (jwsVerify_algorithm token hseg pseg sseg hd ["RS256"] JWKS
               (clock w1) (jose w1) Hs Hd Hnot).
    eexists _, _. split; [reflexivity|]. split; [exact Htrace|].
    intros _ _ _ [t ->]. reflexivity.
Qed.

(** The expiry step of the model, spelled out. *)
Lemma expiryCheck_spec (pl : JWTPayload) (exp now tolerance : Z) :
  pl !! "exp" = Some (JNum exp) ->
  JoseSpec.expiryCheck pl now tolerance = true <-> now - tolerance <= exp.
Proof.
  intros Hexp. unfold JoseSpec.expiryCheck. rewrite Hexp.
  apply bool_decide_eq_true.
Qed.

(** C5.  For a token that passes every other check (structure, algorithm,
    key, signature, issuer, [auth_method], [sub]), [verifyAgentIDToken]
    succeeds exactly when [exp] is at least the current time minus the
    clock tolerance, which is the configured one, 30 when none is
    configured, and may be 0.  A token with [exp] below that bound fails as
    expired; with a tolerance of 0 every [exp] in the past fails. *)
Theorem expiry_check (token : string) (options : VerifyTokenOptions.t)
    (w w1 : SpecWorld) (handle : nat) (st2 : JoseSpec.State)
    (pl : JWTPayload) (sub : string) (exp : Z) :
  @getJwks _ JoseSpec.jose_spec
    (JS.nullish (VerifyTokenOptions.jwksUrl options) DEFAULT_JWKS_URL) w
    = (inr handle, w1) ->
  JoseSpec.jwsVerify token handle ["RS256"] (clock w1) (jose w1) = (inr pl, st2) ->
  pl !! "iss" = Some (JStr "agentid") ->
  pl !! "auth_method" = Some (JStr "bankid") ->
  pl !! "sub" = Some (JStr sub) ->
  sub <> "" ->
  pl !! "exp" = Some (JNum exp) ->
  let tolerance :=
    match VerifyTokenOptions.clockTolerance options with
    | Some seconds => seconds
    | None => 30
    end in
  ((exists w', @verifyAgentIDToken _ JoseSpec.jose_spec token options w
               = (inr pl, w'))
   <-> clock w - tolerance <= exp)
  /\ (exp < clock w - tolerance ->
      exists w', @verifyAgentIDToken _ JoseSpec.jose_spec token options w
                 = (inl (JOSEError TokenExpired "TokenExpired"), w'))
  /\ (VerifyTokenOptions.clockTolerance options = Some 0 ->
      exp < clock w ->
      exists w', @verifyAgentIDToken _ JoseSpec.jose_spec token options w
                 = (inl (JOSEError TokenExpired "TokenExpired"), w')).
Proof.
  intros Hget Hjws Hiss Ham Hsub Hne Hexp tolerance.
  pose proof (getJwks_spec_frame
                (JS.nullish (VerifyTokenOptions.jwksUrl options) DEFAULT_JWKS_URL) w)
    as [Hclock _].
  rewrite Hget in Hclock. cbn [snd] in Hclock.
  assert (Hrun :
    @verifyAgentIDToken _ JoseSpec.jose_spec token options w =
      if JoseSpec.expiryCheck pl (clock w) tolerance
      then (inr pl, {| clock := clock w1; jwksSets := jwksSets w1;
                       jose := st2; console := console w1 |})
      else (inl (JOSEError TokenExpired "TokenExpired"),
            {| clock := clock w1; jwksSets := jwksSets w1;
               jose := st2; console := console w1 |})).
  { unfold verifyAgentIDToken, bind. rewrite Hget.
    unfold call_jwtVerify. cbn [jwtVerify JoseSpec.jose_spec].
    unfold JoseSpec.jwtVerify_spec.
    cbn [JWTVerifyOptions.algorithms]. rewrite Hjws.
    unfold JoseSpec.validateClaims.
    cbn [JWTVerifyOptions.issuer JWTVerifyOptions.clockTolerance].
    unfold JoseSpec.issuerCheck. rewrite Hiss, Hclock.
    cbn [JSValue.strict_eq_string]. rewrite bool_decide_eq_true_2 by done.
    cbn [negb].
    change (JS.nullish (VerifyTokenOptions.clockTolerance options) 30)
      with tolerance.
    destruct (JoseSpec.expiryCheck pl (clock w) tolerance); [|done].
    cbn [negb]. rewrite Ham, Hsub.
    cbn [JSValue.strict_eq_string JSValue.is_string JSValue.length negb orb].
    rewrite bool_decide_eq_true_2 by done.
    by rewrite bool_decide_eq_false_2 by (by destruct sub). }
  assert (Hlate : exp < clock w - tolerance ->
                  JoseSpec.expiryCheck pl (clock w) tolerance = false).
  { intros Hlt. apply not_true_is_false.
    rewrite (expiryCheck_spec _ _ _ _ Hexp). lia. }
  split; [|split].
  - rewrite <- (expiryCheck_spec pl exp (clock w) tolerance Hexp), Hrun.
    destruct (JoseSpec.expiryCheck pl (clock w) tolerance).
    + split; [done|]. intros _. by eexists.
    + split; [by intros [w' [=]] | done].
  - intros Hlt. rewrite Hrun, (Hlate Hlt). by eexists.
  - intros Hzero Hlt. rewrite Hrun, Hlate; [by eexists|].
    subst tolerance. rewrite Hzero. lia.
Qed.

End SpecModel.

Lemma algorithm_allowlist_witness :
  (exists err w',
     Sample.verify "none.hacker." Sample.test_options 2000 = (inl err, w')
     /\ JoseSpec.trace (jose w') = [])
  /\ (exists err w',
        Sample.verify "HS256.valid.signed-by-test-key-1" Sample.test_options 2000
          = (inl err, w')
        /\ JoseSpec.trace (jose w') = []).
Proof.
  split.
  - destruct (@algorithm_allowlist Sample.platform Sample.primitives
                "none.hacker." "none" "hacker" ""
                {| JoseSpec.alg := "none"; JoseSpec.kid := "test-key-1" |}
                Sample.test_options (Sample.world 2000)
                eq_refl eq_refl ltac:(discriminate))
      as (err & w' & Hv & Htrace & _).
    exists err, w'. split; [exact Hv | exact Htrace].
  - destruct (@algorithm_allowlist Sample.platform Sample.primitives
                "HS256.valid.signed-by-test-key-1"
                "HS256" "valid" "signed-by-test-key-1"
                {| JoseSpec.alg := "HS256"; JoseSpec.kid := "test-key-1" |}
                Sample.test_options (Sample.world 2000)
                eq_refl eq_refl ltac:(discriminate))
      as (err & w' & Hv & Htrace & _).
    exists err, w'. split; [exact Hv | exact Htrace].
Defined.

Lemma expiry_check_witness :
  (exists w',
     Sample.verify "RS256.valid.signed-by-test-key-1" Sample.test_options 2000
     = (inr (Sample.claims_of "abc123pseudosub" "agentid" "bankid" 5000), w'))
  /\ (exists w',
        Sample.verify "RS256.expired.signed-by-test-key-1" Sample.test_options 2000
        = (inl (JOSEError TokenExpired "TokenExpired"), w')).
Proof.
  split.
  - apply (proj1 (@expiry_check Sample.platform Sample.primitives
                    "RS256.valid.signed-by-test-key-1" Sample.test_options
                    (Sample.world 2000) _ _ _
                    (Sample.claims_of "abc123pseudosub" "agentid" "bankid" 5000)
                    "abc123pseudosub" 5000
                    eq_refl eq_refl eq_refl eq_refl eq_refl
                    ltac:(discriminate) eq_refl)).
    vm_compute. discriminate.
  - apply (proj1 (proj2 (@expiry_check Sample.platform Sample.primitives
                    "RS256.expired.signed-by-test-key-1" Sample.test_options
                    (Sample.world 2000) _ _ _
                    (Sample.claims_of "abc123pseudosub" "agentid" "bankid" 1000)
                    "abc123pseudosub" 1000
                    eq_refl eq_refl eq_refl eq_refl eq_refl
                    ltac:(discriminate) eq_refl))).
    vm_compute. reflexivity.
Defined.

(** * Further properties of the code *)

(** ** Strings and patterns *)

Lemma append_String (c : ascii) (a b : string) :
  String c a +:+ b = String c (a +:+ b).
Proof. reflexivity. Qed.

Lemma trimStart_head (s : string) :
  match JS.trimStart s with
  | EmptyString => True
  | String c _ => JS.is_whitespace c = false
  end.
Proof.
  induction s as [|c s IH]; [done|]. cbn [JS.trimStart].
  destruct (JS.is_whitespace c) eqn:Hc; [exact IH | exact Hc].
Qed.

Lemma trimStart_fixed (c : ascii) (s : string) :
  JS.is_whitespace c = false -> JS.trimStart (String c s) = String c s.
Proof. intros Hc. cbn [JS.trimStart]. by rewrite Hc. Qed.

Lemma trimEnd_head (c : ascii) (s : string) :
  JS.is_whitespace c = false ->
  exists r, JS.trimEnd (String c s) = String c r.
Proof.
  intros Hc. cbn [JS.trimEnd]. rewrite Hc.
  destruct (JS.trimEnd s); by eauto.
Qed.

Lemma trimEnd_idem (s : string) : JS.trimEnd (JS.trimEnd s) = JS.trimEnd s.
Proof.
  induction s as [|c s IH]; [done|]. cbn [JS.trimEnd].
  destruct (JS.trimEnd s) as [|d r] eqn:Hr.
  - destruct (JS.is_whitespace c) eqn:Hc; [done|].
    cbn [JS.trimEnd]. by rewrite Hc.
  - cbn [JS.trimEnd] in *. by rewrite IH.
Qed.

(** [trim] is idempotent. *)
Lemma trim_idem (s : string) : JS.trim (JS.trim s) = JS.trim s.
Proof.
  unfold JS.trim. pose proof (trimStart_head s) as Hh.
  destruct (JS.trimStart s) as [|c r] eqn:Hs; [done|].
  destruct (trimEnd_head c r Hh) as [r' Hr]. rewrite Hr.
  rewrite (trimStart_fixed c r' Hh), <- Hr. apply trimEnd_idem.
Qed.

Lemma nat_of_ascii_lt (c : ascii) : (nat_of_ascii c < 256)%nat.
Proof. apply nat_ascii_bounded. Qed.

Lemma all_ascii_complete (c : ascii) : In c all_ascii.
Proof.
  unfold all_ascii. rewrite <- (ascii_nat_embedding c).
  apply in_map, in_seq. pose proof (nat_of_ascii_lt c). lia.
Qed.

(** A character that matches a word character under the [i] flag is a word
    character. *)
Lemma ci_eqb_word_char (p c : ascii) :
  RegExp.is_word_char p = true -> RegExp.ci_eqb p c = true ->
  RegExp.is_word_char c = true.
Proof.
  assert (Hall :
    forallb (fun p => forallb (fun c =>
      implb (RegExp.is_word_char p && RegExp.ci_eqb p c) (RegExp.is_word_char c))
      all_ascii) all_ascii = true) by (vm_compute; reflexivity).
  intros Hp Hc. rewrite forallb_forall in Hall.
  specialize (Hall p (all_ascii_complete p)). rewrite forallb_forall in Hall.
  specialize (Hall c (all_ascii_complete c)). by rewrite Hp, Hc in Hall.
Qed.

Lemma ci_match_word_chars (w s : string) :
  all_word_chars w = true -> ci_match w s = true -> all_word_chars s = true.
Proof.
  revert s.
  induction w as [|c w IH]; intros [|d s] Hw Hm;
    cbn [ci_match all_word_chars] in *; try done.
  apply andb_true_iff in Hw as [Hc Hw]. apply andb_true_iff in Hm as [Hd Hs].
  by rewrite (ci_eqb_word_char c d Hc Hd), (IH s Hw Hs).
Qed.

(** Literal atoms consume a string that spells them. *)
Lemma match_here_lits (sig s post : string) (q : pattern) (prev : option ascii) :
  ci_match sig s = true ->
  match_here (lits sig ++ q)%list prev (s +:+ post)
  = match_here q (last_or prev s) post.
Proof.
  revert s prev.
  induction sig as [|c sig IH]; intros [|d s] prev Hm;
    cbn [ci_match] in Hm; try discriminate.
  - reflexivity.
  - apply andb_true_iff in Hm as [Hc Hs]. rewrite append_String.
    cbn [lits app match_here last_or]. rewrite Hc. cbn [andb]. by apply IH.
Qed.

(** A match at the end of a prefix is found by the search. *)
Lemma search_after (p : pattern) (prev : option ascii) (pre rest : string) :
  match_here p (last_or prev pre) rest = true ->
  search p prev (pre +:+ rest) = true.
Proof.
  revert prev. induction pre as [|c pre IH]; intros prev Hm.
  - change ("" +:+ rest) with rest. cbn [last_or] in Hm.
    destruct rest; cbn [search]; by rewrite Hm.
  - rewrite append_String. cbn [search]. rewrite (IH (Some c) Hm).
    apply orb_true_r.
Qed.

Lemma last_or_word (prev : option ascii) (s : string) :
  s <> "" -> all_word_chars s = true -> is_word (last_or prev s) = true.
Proof.
  revert prev. induction s as [|c s IH]; intros prev Hne Hw; [done|].
  cbn in *. apply andb_true_iff in Hw as [Hc Hw].
  destruct s as [|d s]; [exact Hc|]. by apply IH.
Qed.

(** ** detect.ts, continued *)

Lemma isAgentRequest_signature (headers : Headers) (ua : string) (p : pattern) :
  Hdr.get headers "user-agent" = Some ua ->
  In p BOT_UA_PATTERNS ->
  test p ua = true ->
  isAgentRequest headers = true.
Proof.
  intros Hua Hin Ht. unfold isAgentRequest. rewrite Hua. cbn [JS.nullish].
  destruct (JS.truthy ua); [|done]. cbn [negb].
  assert (existsb (fun p => test p ua) BOT_UA_PATTERNS = true) as ->; [|done].
  apply existsb_exists. by exists p.
Qed.

Lemma test_contains (sig pre s post : string) :
  ci_match sig s = true ->
  test (lits sig) (pre +:+ s +:+ post) = true.
Proof.
  intros Hm. unfold test. apply search_after.
  rewrite <- (app_nil_r (lits sig)). by rewrite (match_here_lits _ _ _ _ _ Hm).
Qed.

(** X1.  Every signature of the list that is written without word
    boundaries is found anywhere in the User-Agent and in any letter case:
    a request whose User-Agent contains it is classified as automated,
    whatever its other headers are. *)
Theorem isAgentRequest_literal_signature
    (headers : Headers) (sig pre s post : string) :
  In (lits sig) BOT_UA_PATTERNS ->
  ci_match sig s = true ->
  Hdr.get headers "user-agent" = Some (pre +:+ s +:+ post) ->
  isAgentRequest headers = true.
Proof.
  intros Hin Hm Hua.
  apply (isAgentRequest_signature headers _ (lits sig) Hua Hin).
  by apply test_contains.
Qed.

Lemma isAgentRequest_literal_signature_witness :
  isAgentRequest
    (h [("user-agent", "Mozilla/5.0 (compatible; gptbot/1.2; +https://openai.com)");
        ("accept-language", "en-US")]) = true.
Proof.
  apply (isAgentRequest_literal_signature _ "GPTBot"
           "Mozilla/5.0 (compatible; " "gptbot" "/1.2; +https://openai.com)").
  - left. reflexivity.
  - reflexivity.
  - reflexivity.
Defined.

Lemma lits_inj (a b : string) : lits a = lits b -> a = b.
Proof.
  revert b. induction a as [|c a IH]; intros [|d b] Heq; cbn in Heq; try done.
  injection Heq as -> Heq. by rewrite (IH b Heq).
Qed.

Lemma word_pattern_eq (a w : string) :
  (WordBoundary :: lits a ++ [WordBoundary])%list
  = (WordBoundary :: lits w ++ [WordBoundary])%list ->
  a = w.
Proof.
  intros Heq. apply (f_equal (@tl atom)) in Heq. cbn [tl] in Heq.
  apply app_inj_tail in Heq as [Heq _]. by apply lits_inj.
Qed.

Lemma got_pattern_ne (w : string) :
  (WordBoundary :: lits "got" ++ [WordBoundary; Lit "/"%char])%list
  <> (WordBoundary :: lits w ++ [WordBoundary])%list.
Proof.
  intros Heq. apply (f_equal (@tl atom)) in Heq. cbn [tl] in Heq.
  change (lits "got" ++ [WordBoundary; Lit "/"%char])%list
    with ((lits "got" ++ [WordBoundary]) ++ [Lit "/"%char])%list in Heq.
  apply app_inj_tail in Heq as [_ Heq]. discriminate Heq.
Qed.

(** The patterns of the list of the form [\bword\b]. *)
Lemma word_pattern_inv (w : string) :
  In (WordBoundary :: lits w ++ [WordBoundary])%list BOT_UA_PATTERNS ->
  In w ["axios"; "undici"; "curl"; "wget"; "httpie"; "bot"; "crawler";
        "spider"; "scraper"; "fetcher"].
Proof.
  unfold BOT_UA_PATTERNS. cbn [In].
  intros Hin.
  repeat (destruct Hin as [Heq|Hin];
          [ first
              [ discriminate Heq
              | apply word_pattern_eq in Heq; subst w; tauto
              | by apply got_pattern_ne in Heq ]
          | ]).
  destruct Hin.
Qed.

(** X2.  Every signature of the list that is written between word
    boundaries ([\bcurl\b] and the like) is found in any letter case
    wherever it stands as a word of its own, that is, neither preceded nor
    followed by a letter, a digit or an underscore: such a request is
    classified as automated, whatever its other headers are. *)
Theorem isAgentRequest_word_signature
    (headers : Headers) (w pre s post : string) :
  In (WordBoundary :: lits w ++ [WordBoundary])%list BOT_UA_PATTERNS ->
  ci_match w s = true ->
  is_word (last_or None pre) = false ->
  is_word (RegExp.head post) = false ->
  Hdr.get headers "user-agent" = Some (pre +:+ s +:+ post) ->
  isAgentRequest headers = true.
Proof.
  intros Hin Hm Hpre Hpost Hua.
  apply (isAgentRequest_signature headers _ _ Hua Hin).
  assert (Hw : w <> "" /\ all_word_chars w = true).
  { apply word_pattern_inv in Hin. cbn [In] in Hin.
    repeat (destruct Hin as [<-|Hin]; [by split|]). destruct Hin. }
  destruct Hw as [Hne Hw].
  pose proof (ci_match_word_chars w s Hw Hm) as Hs.
  assert (Hsne : s <> "") by (destruct w, s; cbn in Hm; congruence).
  unfold test. apply search_after. cbn [match_here].
  rewrite (match_here_lits _ _ _ _ _ Hm). cbn [match_here].
  rewrite Hpre, Hpost, (last_or_word _ s Hsne Hs).
  destruct s as [|c s]; [done|]. rewrite append_String.
  cbn [all_word_chars] in Hs. apply andb_true_iff in Hs as [Hc _].
  cbn [RegExp.head is_word]. by rewrite Hc.
Qed.

Lemma isAgentRequest_word_signature_witness :
  isAgentRequest
    (h [("user-agent", "my-tool (CURL; x86_64)"); ("accept-language", "en")])
  = true.
Proof.
  apply (isAgentRequest_word_signature _ "curl" "my-tool (" "CURL" "; x86_64)").
  - do 19 right. left. reflexivity.
  - reflexivity.
  - reflexivity.
  - reflexivity.
  - reflexivity.
Defined.

(** X3.  A User-Agent that carries the browser marker [Mozilla/5.0] (in
    any letter case) and matches no signature of the list is classified as
    human whether or not an Accept-Language header is present: the header
    only matters for User-Agents without the marker. *)
Theorem isAgentRequest_browser_marker
    (headers : Headers) (pre marker post : string) :
  ci_match "Mozilla/5.0" marker = true ->
  Hdr.get headers "user-agent" = Some (pre +:+ marker +:+ post) ->
  existsb (fun p => test p (pre +:+ marker +:+ post)) BOT_UA_PATTERNS = false ->
  isAgentRequest headers = false.
Proof.
  intros Hm Hua Hbot.
  assert (Hne : pre +:+ marker +:+ post <> "").
  { destruct pre; [|done]. by destruct marker. }
  rewrite (isAgentRequest_unlisted _ _ Hua Hne Hbot).
  unfold BROWSER_UA_RE. by rewrite (test_contains _ _ _ _ Hm).
Qed.

Lemma isAgentRequest_browser_marker_witness :
  isAgentRequest
    (h [("user-agent",
         "Mozilla/5.0 (Windows NT 10.0; Win64; x64; rv:120.0) Gecko/20100101 Firefox/120.0")])
  = false.
Proof.
  apply (isAgentRequest_browser_marker _ "" "Mozilla/5.0"
           " (Windows NT 10.0; Win64; x64; rv:120.0) Gecko/20100101 Firefox/120.0");
    reflexivity.
Defined.

(** X4.  A token returned by [extractToken] is never empty, carries no
    leading or trailing white space, and is the trimmed remainder of a
    Bearer Authorization header or the trimmed fallback header: it comes
    from nowhere else. *)
Theorem extractToken_trimmed (headers : Headers) (token : string) :
  extractToken headers = Some token ->
  token <> ""
  /\ JS.trim token = token
  /\ ((exists rest,
         Hdr.get headers "authorization" = Some ("Bearer " +:+ rest)
         /\ token = JS.trim rest)
      \/ (exists custom,
            Hdr.get headers "x-agentid-token" = Some custom
            /\ token = JS.trim custom)).
Proof.
  intros Htok. split; [by apply truthy_true, (extractToken_truthy headers)|].
  assert (Hsrc :
    (exists rest, Hdr.get headers "authorization" = Some ("Bearer " +:+ rest)
                  /\ token = JS.trim rest)
    \/ (exists custom, Hdr.get headers "x-agentid-token" = Some custom
                       /\ token = JS.trim custom)).
  { revert Htok. unfold extractToken.
    destruct (Hdr.get headers "authorization") as [auth|] eqn:Hauth;
      cbn [JS.nullish].
    - destruct (JS.startsWith auth "Bearer ") eqn:Hp.
      + apply prefix_inv in Hp as [rest ->].
        destruct (bearer_remainder rest) as [_ ->].
        destruct (JS.truthy (JS.trim rest)).
        * intros [= <-]. left. by exists rest.
        * destruct (Hdr.get headers "x-agentid-token") as [c|]; cbn; [|done].
          destruct (JS.truthy (JS.trim c)); [|done].
          intros [= <-]. right. by exists c.
      + destruct (Hdr.get headers "x-agentid-token") as [c|]; cbn; [|done].
        destruct (JS.truthy (JS.trim c)); [|done].
        intros [= <-]. right. by exists c.
    - cbn. destruct (Hdr.get headers "x-agentid-token") as [c|]; cbn; [|done].
      destruct (JS.truthy (JS.trim c)); [|done].
      intros [= <-]. right. by exists c. }
  split; [|exact Hsrc].
  destruct Hsrc as [(rest & _ & ->) | (custom & _ & ->)]; apply trim_idem.
Qed.

Lemma extractToken_trimmed_witness :
  "my.token.here" <> ""
  /\ JS.trim "my.token.here" = "my.token.here"
  /\ ((exists rest,
         Hdr.get (h [("x-agentid-token", "  my.token.here  ")]) "authorization"
           = Some ("Bearer " +:+ rest)
         /\ "my.token.here" = JS.trim rest)
      \/ (exists custom,
            Hdr.get (h [("x-agentid-token", "  my.token.here  ")]) "x-agentid-token"
              = Some custom
            /\ "my.token.here" = JS.trim custom)).
Proof.
  apply (extractToken_trimmed (h [("x-agentid-token", "  my.token.here  ")])).
  reflexivity.
Defined.

(** ** verify.ts, continued *)

Section VerifierFurther.

Context `{Platform} `{Jose}.

(** What [getJwks] does to the cache: nothing, or one new entry for its
    own argument, which then is an endpoint that passed the check. *)
Lemma getJwks_cache (rawUrl : string) (w : World) :
  let w' := snd (getJwks rawUrl w) in
  clock w' = clock w /\ console w' = console w
  /\ (w' = w
      \/ (jwksSets w !! rawUrl = None /\ secure_endpoint rawUrl
          /\ exists set, getJwks rawUrl w = (inr set, w')
                         /\ jwksSets w' = <[rawUrl := set]> (jwksSets w))).
Proof.
  unfold getJwks.
  destruct (jwksSets w !! rawUrl) as [set|] eqn:Hc; [by auto|].
  destruct (URL_parse rawUrl) as [u|] eqn:Hu; [|by auto].
  destruct (negb (bool_decide (protocol u = "https:")) && negb (isLocal u))
    eqn:Hsec; [by auto|].
  destruct (createRemoteJWKSet _ _ _) as [set j]. cbn.
  split; [done|]. split; [done|]. right. split; [done|]. split; [|by eauto].
  exists u. split; [done|].
  apply andb_false_iff in Hsec as [Hs|Hs]; apply negb_false_iff in Hs.
  - left. by apply bool_decide_eq_true in Hs.
  - by right.
Qed.

(** [verifyAgentIDToken] touches the world through [getJwks] and through
    jose only. *)
Lemma verifyAgentIDToken_frame (token : string) (options : VerifyTokenOptions.t)
    (w : World) :
  let w' := snd (verifyAgentIDToken token options w) in
  clock w' = clock w /\ console w' = console w
  /\ jwksSets w' = jwksSets (snd (getJwks (endpoint_of options) w)).
Proof.
  pose proof (getJwks_cache (endpoint_of options) w) as (Hclock & Hcons & _).
  unfold verifyAgentIDToken, bind. fold (endpoint_of options).
  destruct (getJwks (endpoint_of options) w) as [[err|JWKS] w1]; [done|].
  cbn [snd] in *. unfold call_jwtVerify.
  destruct (jwtVerify _ _ _ _ _) as [[err|payload] j]; [done|].
  by repeat case_match.
Qed.

Lemma unauthorized_world request hs msg block cb (w : World) :
  snd (unauthorized request hs msg block cb w) = w.
Proof. by rewrite unauthorized_cases. Qed.

Lemma inject_world (hs : Headers) (claims : AgentIDClaims) (w : World) :
  snd (inject hs claims w) = w.
Proof.
  unfold inject, bind, Headers_set.
  repeat (match goal with
          | |- context [Hdr.set ?a ?b ?c] => destruct (Hdr.set a b c)
          end; unfold ret, throw; cbn [snd]; try done).
Qed.

(** The middleware touches the cache through [verifyAgentIDToken] only. *)
Lemma createAgentIDMiddleware_cache
    (options : AgentIDMiddlewareOptions.t) (request : NextRequest) (w : World) :
  let w' := snd (createAgentIDMiddleware options request w) in
  jwksSets w' = jwksSets w
  \/ exists token,
       jwksSets w' = jwksSets (snd (verifyAgentIDToken token (verify_options options) w)).
Proof.
  rewrite createAgentIDMiddleware_cases. cbv zeta.
  destruct (negb (isAgentRequest _)); [by left|].
  destruct (extractToken _) as [token|].
  - right. exists token.
    destruct (verifyAgentIDToken token (verify_options options) w)
      as [[err|claims] w0].
    + by rewrite unauthorized_world.
    + by rewrite inject_world.
  - left. by rewrite unauthorized_world.
Qed.

Lemma getJwks_keeps (rawUrl k : string) (set : RemoteJWKSet) (w : World) :
  jwksSets w !! k = Some set ->
  jwksSets (snd (getJwks rawUrl w)) !! k = Some set.
Proof.
  intros Hk. destruct (getJwks_cache rawUrl w) as (_ & _ & [-> | Hnew]); [done|].
  destruct Hnew as (Hfresh & _ & set' & _ & ->).
  rewrite lookup_insert_ne; [done|]. intros ->. congruence.
Qed.

(** Entries of the cache are never removed nor replaced. *)
Lemma evolves_keeps (w w' : World) (k : string) (set : RemoteJWKSet) :
  evolves w w' -> jwksSets w !! k = Some set -> jwksSets w' !! k = Some set.
Proof.
  induction 1 as [w|now w w' _ IH|token options w w' _ IH|options request w w' _ IH];
    intros Hk.
  - done.
  - by apply IH.
  - destruct (verifyAgentIDToken_frame token options w') as (_ & _ & ->).
    by apply getJwks_keeps, IH.
  - destruct (createAgentIDMiddleware_cache options request w')
      as [-> | [token ->]]; [by apply IH|].
    destruct (verifyAgentIDToken_frame token (verify_options options) w')
      as (_ & _ & ->).
    by apply getJwks_keeps, IH.
Qed.

(** A key set that [getJwks] returns is in the cache afterwards. *)
Lemma getJwks_result (rawUrl : string) (set : RemoteJWKSet) (w w1 : World) :
  getJwks rawUrl w = (inr set, w1) -> jwksSets w1 !! rawUrl = Some set.
Proof.
  unfold getJwks.
  destruct (jwksSets w !! rawUrl) as [set0|] eqn:Hc; [by intros [= <- <-]|].
  destruct (URL_parse rawUrl) as [u|]; [|discriminate].
  destruct (negb _ && negb _); [discriminate|].
  destruct (createRemoteJWKSet _ _ _) as [set1 j]. intros [= <- <-]. cbn.
  apply lookup_insert_eq.
Qed.

(** X5.  One key set per URL: once [getJwks] has returned a key set for a
    URL, every later call for the same URL, after any number of
    verifications and requests with any options, returns the same key set
    and leaves the world as it is (jose's [createRemoteJWKSet] is not
    called again). *)
Theorem getJwks_one_instance_per_url
    (rawUrl : string) (set : RemoteJWKSet) (w w1 w2 : World) :
  getJwks rawUrl w = (inr set, w1) ->
  evolves w1 w2 ->
  getJwks rawUrl w2 = (inr set, w2).
Proof.
  intros Hget Hev. unfold getJwks.
  by rewrite (evolves_keeps _ _ _ _ Hev (getJwks_result _ _ _ _ Hget)).
Qed.

(** X6.  A verification adds at most one entry to the key-set cache: the
    one for its own endpoint, which then parses as a URL and is HTTPS or a
    loopback host.  It removes or replaces no entry, and it writes nothing
    to the console. *)
Theorem verifyAgentIDToken_cache (token : string)
    (options : VerifyTokenOptions.t) (w : World) :
  let w' := snd (verifyAgentIDToken token options w) in
  console w' = console w
  /\ (forall k set, jwksSets w !! k = Some set -> jwksSets w' !! k = Some set)
  /\ (forall k, k <> endpoint_of options -> jwksSets w' !! k = jwksSets w !! k)
  /\ (jwksSets w !! endpoint_of options = None ->
      is_Some (jwksSets w' !! endpoint_of options) ->
      exists u, URL_parse (endpoint_of options) = Some u
                /\ (protocol u = "https:" \/ hostname u = "localhost"
                    \/ hostname u = "127.0.0.1" \/ hostname u = "::1")).
Proof.
  cbv zeta.
  destruct (verifyAgentIDToken_frame token options w) as (_ & Hcons & Hsets).
  rewrite Hsets. split; [exact Hcons|].
  split; [intros k set; apply getJwks_keeps|].
  destruct (getJwks_cache (endpoint_of options) w) as (_ & _ & [-> | Hnew]).
  - split; [done|]. intros -> [? ?]. done.
  - destruct Hnew as (_ & (u & Hu & Hsec) & set & _ & ->). split.
    + intros k Hk. by rewrite lookup_insert_ne.
    + intros _ _. exists u. split; [done|].
      destruct Hsec as [Hs|Hs%isLocal_spec]; tauto.
Qed.

(** X7.  In a running process [getJwks] returns a key set exactly for the
    URLs that parse and are HTTPS or name one of the hosts localhost,
    127.0.0.1, ::1; the port, the path and, for HTTPS, the host do not
    matter. *)
Theorem getJwks_accepts_iff (rawUrl : string) (w : World) :
  reachable w ->
  (exists set w', getJwks rawUrl w = (inr set, w'))
  <-> (exists u, URL_parse rawUrl = Some u
                 /\ (protocol u = "https:" \/ hostname u = "localhost"
                     \/ hostname u = "127.0.0.1" \/ hostname u = "::1")).
Proof.
  intros Hinv%reachable_jwks_inv. split.
  - intros (set & w' & Hget).
    destruct (jwksSets w !! rawUrl) as [set0|] eqn:Hc.
    + destruct (Hinv _ _ Hc) as (u & Hu & Hsec). exists u. split; [done|].
      destruct Hsec as [Hs|Hs%isLocal_spec]; tauto.
    + pose proof (getJwks_result _ _ _ _ Hget) as Hres.
      destruct (getJwks_cache rawUrl w) as (_ & _ & Hcase).
      rewrite Hget in Hcase. cbn [snd] in Hcase.
      destruct Hcase as [-> | (_ & (u & Hu & Hsec) & _)]; [congruence|].
      exists u. split; [done|].
      destruct Hsec as [Hs|Hs%isLocal_spec]; tauto.
  - intros (u & Hu & Hsec). unfold getJwks.
    destruct (jwksSets w !! rawUrl) as [set|]; [by eauto|]. rewrite Hu.
    assert (negb (bool_decide (protocol u = "https:")) && negb (isLocal u) = false)
      as ->.
    { destruct Hsec as [Hp|Hl].
      - by rewrite (bool_decide_eq_true_2 _ Hp).
      - apply isLocal_spec in Hl. rewrite Hl. apply andb_false_r. }
    destruct (createRemoteJWKSet _ _ _). by eauto.
Qed.

(** X8.  Whatever jose's [jwtVerify] lets through, the claims that
    [verifyAgentIDToken] returns carry [auth_method] equal to the string
    ["bankid"] and a [sub] that is a non-empty string. *)
Theorem verifyAgentIDToken_postcondition (token : string)
    (options : VerifyTokenOptions.t) (w w' : World) (claims : AgentIDClaims) :
  verifyAgentIDToken token options w = (inr claims, w') ->
  claims !! "auth_method" = Some (JStr "bankid")
  /\ exists sub, claims !! "sub" = Some (JStr sub) /\ sub <> "".
Proof.
  unfold verifyAgentIDToken, bind.
  destruct (getJwks _ w) as [[err|JWKS] w1]; [discriminate|].
  destruct (call_jwtVerify _ _ _ w1) as [[err|payload] w2]; [discriminate|].
  destruct (JSValue.strict_eq_string (payload !! "auth_method") "bankid") eqn:Ham;
    [|discriminate]. cbn [negb].
  destruct (JSValue.is_string (payload !! "sub")) eqn:Hstr; [|discriminate].
  cbn [negb orb]. case_bool_decide as Hlen; [discriminate|].
  intros [= <- _]. split.
  - unfold JSValue.strict_eq_string in Ham.
    destruct (payload !! "auth_method") as [[| | |t| |]|]; try discriminate.
    by apply bool_decide_eq_true in Ham as ->.
  - destruct (payload !! "sub") as [[| | |t| |]|]; try discriminate.
    exists t. split; [done|]. intros ->. by apply Hlen.
Qed.


End VerifierFurther.

Lemma getJwks_one_instance_per_url_witness :
  let w1 := snd (@getJwks Sample.platform Sample.jose_lib
                   Sample.TEST_JWKS_URL (Sample.world 0)) in
  let w2 := snd (@verifyAgentIDToken Sample.platform Sample.jose_lib
                   "RS256.valid.signed-by-test-key-1"
                   (Sample.options_at "https://keys.example/jwks" None) w1) in
  @getJwks Sample.platform Sample.jose_lib Sample.TEST_JWKS_URL w2
  = (inr (0%nat : @RemoteJWKSet Sample.jose_lib), w2).
Proof.
  intros w1 w2.
  apply (@getJwks_one_instance_per_url Sample.platform Sample.jose_lib
           Sample.TEST_JWKS_URL _ (Sample.world 0) w1 w2).
  - reflexivity.
  - apply evolves_verify, evolves_refl.
Defined.

Lemma verifyAgentIDToken_cache_witness :
  let w' := snd (Sample.verify "RS256.valid.signed-by-test-key-1"
                   Sample.test_options 2000) in
  console w' = []
  /\ jwksSets w' !! "https://keys.example/jwks" = None
  /\ exists u, Sample.parse_url Sample.TEST_JWKS_URL = Some u
               /\ (protocol u = "https:" \/ hostname u = "localhost"
                   \/ hostname u = "127.0.0.1" \/ hostname u = "::1").
Proof.
  intros w'.
  destruct (@verifyAgentIDToken_cache Sample.platform Sample.jose_lib
              "RS256.valid.signed-by-test-key-1" Sample.test_options
              (Sample.world 2000)) as (Hcons & _ & Hother & Hnew).
  split; [exact Hcons|]. split.
  - apply (Hother "https://keys.example/jwks"). discriminate.
  - apply Hnew; [reflexivity|]. eexists. reflexivity.
Defined.

Lemma getJwks_accepts_iff_witness :
  (exists set w',
     @getJwks Sample.platform Sample.jose_lib
       "https://keys.example:8443/jwks" (Sample.world 0) = (inr set, w'))
  /\ (exists set w',
        @getJwks Sample.platform Sample.jose_lib
          "http://127.0.0.1:3000/jwks" (Sample.world 0) = (inr set, w')).
Proof.
  pose proof (@reachable_initial Sample.platform Sample.jose_lib 0 Sample.cold)
    as Hr.
  split.
  - apply (proj2 (@getJwks_accepts_iff Sample.platform Sample.jose_lib
                    "https://keys.example:8443/jwks" _ Hr)).
    eexists. split; [reflexivity|]. left. reflexivity.
  - apply (proj2 (@getJwks_accepts_iff Sample.platform Sample.jose_lib
                    "http://127.0.0.1:3000/jwks" _ Hr)).
    eexists. split; [reflexivity|]. right. right. left. reflexivity.
Defined.

Lemma verifyAgentIDToken_postcondition_witness :
  let claims := Sample.claims_of "abc123pseudosub" "agentid" "bankid" 5000 in
  claims !! "auth_method" = Some (JStr "bankid")
  /\ exists sub, claims !! "sub" = Some (JStr sub) /\ sub <> "".
Proof.
  intros claims.
  apply (@verifyAgentIDToken_postcondition Sample.platform Sample.jose_lib
           "RS256.valid.signed-by-test-key-1" Sample.test_options
           (Sample.world 2000)
           (snd (Sample.verify "RS256.valid.signed-by-test-key-1"
                   Sample.test_options 2000))).
  reflexivity.
Defined.


(** ** middleware.ts and index.ts, continued *)

Lemma Hdr_set_Some (hs hs' : Headers) (name value : string) :
  Hdr.set hs name value = Some hs' ->
  hs' = <[name := Hdr.normalize value]> hs
  /\ Hdr.valid_value (Hdr.normalize value) = true.
Proof.
  unfold Hdr.set. destruct (Hdr.valid_value _); [|discriminate].
  by intros [= <-].
Qed.

Lemma not_managed (name : string) :
  name ∉ MANAGED_HEADERS ->
  name <> "x-agentid-verified" /\ name <> "x-agentid-sub"
  /\ name <> "x-agentid-claims".
Proof.
  unfold MANAGED_HEADERS. rewrite !elem_of_cons, elem_of_nil. tauto.
Qed.

Lemma strip_managed_unmanaged (hs : Headers) (name : string) :
  name ∉ MANAGED_HEADERS -> strip_managed hs !! name = hs !! name.
Proof.
  intros Hn. rewrite strip_managed_lookup. by rewrite bool_decide_eq_false_2.
Qed.

Section MiddlewareFurther.

Context `{Platform} `{Jose}.

(** The verified path: the three headers are set, or [Headers.set] refuses
    a value and its [TypeError] leaves the middleware. *)
Lemma inject_cases (hs : Headers) (claims : AgentIDClaims) (w : World) :
  (Hdr.valid_value (Hdr.normalize (JSValue.toString_opt (claims !! "sub"))) = true
   /\ Hdr.valid_value (Hdr.normalize (JSON_stringify claims)) = true
   /\ inject hs claims w = (inr (NextResponse_next (verified_headers hs claims)), w))
  \/ ((Hdr.valid_value (Hdr.normalize (JSValue.toString_opt (claims !! "sub"))) = false
       \/ Hdr.valid_value (Hdr.normalize (JSON_stringify claims)) = false)
      /\ inject hs claims w = (inl (TypeError "Invalid header value"), w)).
Proof.
  unfold inject, bind, Headers_set, verified_headers.
  change (Hdr.set hs "x-agentid-verified" "true")
    with (Some (<["x-agentid-verified" := "true"]> hs)).
  unfold ret at 1. unfold Hdr.set.
  destruct (Hdr.valid_value (Hdr.normalize (JSValue.toString_opt (claims !! "sub"))));
    [|by right; split; [left|]].
  unfold ret at 1.
  destruct (Hdr.valid_value (Hdr.normalize (JSON_stringify claims)));
    [by left | by right; split; [right|]].
Qed.

Lemma downstream_next (request : NextRequest) (hs : Headers) :
  getAgentIDResult <$> downstream request (NextResponse_next hs)
  = Some (getAgentIDResult {| headers := hs; url := url request |}).
Proof. reflexivity. Qed.

(** X10.  Human traffic.  A request that is not classified as an agent is
    forwarded whatever the options are, with the headers the client sent
    minus the three managed ones; nothing is verified and nothing is
    logged (the world is unchanged); and the route handler reads
    [not_agent], even when the client sent [x-agentid-verified: true]
    itself. *)
Theorem human_traffic_passes
    (options : AgentIDMiddlewareOptions.t) (request : NextRequest) (w : World) :
  isAgentRequest (strip_managed (headers request)) = false ->
  exists hs,
    createAgentIDMiddleware options request w = (inr (NextResponse_next hs), w)
    /\ (forall name, name ∉ MANAGED_HEADERS -> hs !! name = headers request !! name)
    /\ (forall name, name ∈ MANAGED_HEADERS -> hs !! name = None)
    /\ getAgentIDResult {| headers := hs; url := url request |}
       = AgentIDUnverified not_agent.
Proof.
  intros Hhuman. exists (strip_managed (headers request)).
  rewrite createAgentIDMiddleware_cases. cbv zeta. rewrite Hhuman.
  split; [done|]. split; [apply strip_managed_unmanaged|]. split.
  - intros name Hin. rewrite strip_managed_lookup.
    by rewrite bool_decide_eq_true_2.
  - unfold getAgentIDResult, Hdr.get. cbn [headers].
    rewrite strip_managed_lookup.
    by rewrite (bool_decide_eq_true_2 ("x-agentid-verified" ∈ MANAGED_HEADERS))
      by apply list_elem_of_here.
Qed.

(** X11.  An agent request without a token never reaches
    [verifyAgentIDToken]: the world is unchanged.  Unless an override
    callback answers, the response is the 403 rejection with the
    missing-token message when blocking (the default), and otherwise the
    request is forwarded with [x-agentid-verified: false] and its other
    headers untouched; an answer of the override callback is returned as it
    is. *)
Theorem missing_token_response
    (options : AgentIDMiddlewareOptions.t) (request : NextRequest) (w : World) :
  isAgentRequest (strip_managed (headers request)) = true ->
  extractToken (strip_managed (headers request)) = None ->
  snd (createAgentIDMiddleware options request w) = w
  /\ ((forall callback,
         AgentIDMiddlewareOptions.onUnauthorizedAgent options = Some callback ->
         callback request MISSING_TOKEN_MESSAGE = None) ->
      fst (createAgentIDMiddleware options request w)
      = inr (match AgentIDMiddlewareOptions.blockUnauthorizedAgents options with
             | Some false =>
                 NextResponse_next
                   (<["x-agentid-verified" := "false"]>
                    (strip_managed (headers request)))
             | _ =>
                 NextResponse_json
                   (JObj [("error", JStr "AGENT_UNAUTHORIZED");
                          ("message", JStr MISSING_TOKEN_MESSAGE)]) 403
             end))
  /\ (forall callback custom,
        AgentIDMiddlewareOptions.onUnauthorizedAgent options = Some callback ->
        callback request MISSING_TOKEN_MESSAGE = Some custom ->
        fst (createAgentIDMiddleware options request w) = inr custom).
Proof.
  intros Hagent Htok. rewrite createAgentIDMiddleware_cases. cbv zeta.
  rewrite Hagent, Htok. cbn [negb]. rewrite unauthorized_cases. cbn [fst snd].
  split; [done|]. split.
  - intros Hdecline.
    destruct (AgentIDMiddlewareOptions.onUnauthorizedAgent options)
      as [callback|]; [rewrite (Hdecline callback eq_refl)|];
      by destruct (AgentIDMiddlewareOptions.blockUnauthorizedAgents options)
        as [[]|].
  - intros callback custom -> ->. done.
Qed.

(** X12.  Without an override callback (which is caller code and may
    throw on its own), no failure of the verification leaves the middleware
    as an exception.  The middleware then throws only after
    [verifyAgentIDToken] has accepted the token, when [Headers.set] refuses
    a value derived from the claims; what is thrown is a [TypeError]. *)
Theorem middleware_throws_only_when_verified
    (options : AgentIDMiddlewareOptions.t) (request : NextRequest)
    (w w' : World) (e : Exn) :
  AgentIDMiddlewareOptions.onUnauthorizedAgent options = None ->
  createAgentIDMiddleware options request w = (inl e, w') ->
  exists token claims,
    extractToken (strip_managed (headers request)) = Some token
    /\ verifyAgentIDToken token (verify_options options) w = (inr claims, w')
    /\ exists msg, e = TypeError msg.
Proof.
  intros _. rewrite createAgentIDMiddleware_cases. cbv zeta.
  destruct (negb (isAgentRequest _)); [discriminate|].
  destruct (extractToken _) as [token|];
    [|rewrite unauthorized_cases; discriminate].
  destruct (verifyAgentIDToken token (verify_options options) w)
    as [[err|claims] w0] eqn:Hv; [rewrite unauthorized_cases; discriminate|].
  destruct (inject_cases (strip_managed (headers request)) claims w0)
    as [(_ & _ & ->) | (_ & ->)]; [discriminate|].
  intros [= <- <-]. exists token, claims. by eauto.
Qed.

(** X13.  What the middleware writes to the console: one line, made of
    the fixed prefix and the message of the error, when
    [verifyAgentIDToken] throws; nothing in every other case. *)
Theorem middleware_console
    (options : AgentIDMiddlewareOptions.t) (request : NextRequest) (w : World) :
  let w' := snd (createAgentIDMiddleware options request w) in
  (forall token err w0,
      isAgentRequest (strip_managed (headers request)) = true ->
      extractToken (strip_managed (headers request)) = Some token ->
      verifyAgentIDToken token (verify_options options) w = (inl err, w0) ->
      console w' = (console w ++ ["[agent-id] Token verification failed: "
                                  +:+ message err])%list)
  /\ ((isAgentRequest (strip_managed (headers request)) = false
       \/ extractToken (strip_managed (headers request)) = None
       \/ exists token claims w0,
            extractToken (strip_managed (headers request)) = Some token
            /\ verifyAgentIDToken token (verify_options options) w
               = (inr claims, w0)) ->
      console w' = console w).
Proof.
  cbv zeta. rewrite createAgentIDMiddleware_cases. cbv zeta. split.
  - intros token err w0 -> -> Hv. cbn [negb]. rewrite Hv, unauthorized_world.
    destruct (verifyAgentIDToken_frame token (verify_options options) w)
      as (_ & Hcons & _).
    rewrite Hv in Hcons. cbn [snd] in Hcons. cbn. by rewrite Hcons.
  - intros [-> | [Hnone | (token & claims & w0 & Htok & Hv)]]; [done| |].
    + destruct (negb (isAgentRequest _)); [done|].
      by rewrite Hnone, unauthorized_world.
    + destruct (negb (isAgentRequest _)); [done|].
      rewrite Htok, Hv, inject_world.
      destruct (verifyAgentIDToken_frame token (verify_options options) w)
        as (_ & Hcons & _).
      by rewrite Hv in Hcons.
Qed.

(** X14.  Whenever the middleware itself forwards a request (no override
    callback answered), every header other than the three managed ones
    reaches the route handler exactly as the client sent it; the
    Authorization header with the token is among them. *)
Theorem middleware_keeps_unmanaged_headers
    (options : AgentIDMiddlewareOptions.t) (request : NextRequest)
    (w w' : World) (hs : Headers) :
  (forall callback msg,
      AgentIDMiddlewareOptions.onUnauthorizedAgent options = Some callback ->
      callback request msg = None) ->
  createAgentIDMiddleware options request w = (inr (NextResponse_next hs), w') ->
  forall name, name ∉ MANAGED_HEADERS -> hs !! name = headers request !! name.
Proof.
  intros Hdecline Hmw name Hn.
  destruct (not_managed name Hn) as (Hn1 & Hn2 & Hn3).
  assert (Hun : forall msg block w0 w1,
    unauthorized request (strip_managed (headers request)) msg block
      (AgentIDMiddlewareOptions.onUnauthorizedAgent options) w0
    = (inr (NextResponse_next hs), w1) ->
    hs !! name = headers request !! name).
  { intros msg block w0 w1. rewrite unauthorized_cases.
    destruct (AgentIDMiddlewareOptions.onUnauthorizedAgent options)
      as [callback|]; [rewrite (Hdecline callback msg eq_refl)|];
      (destruct block; [discriminate|]); intros [= <- _];
      by rewrite lookup_insert_ne, strip_managed_unmanaged. }
  rewrite createAgentIDMiddleware_cases in Hmw. cbv zeta in Hmw.
  destruct (negb (isAgentRequest _)).
  { injection Hmw as <- _. by apply strip_managed_unmanaged. }
  destruct (extractToken _) as [token|]; [|by eapply Hun].
  destruct (verifyAgentIDToken token (verify_options options) w)
    as [[err|claims] w0]; [by eapply Hun|].
  destruct (inject_cases (strip_managed (headers request)) claims w0)
    as [(_ & _ & Hi) | (_ & Hi)]; rewrite Hi in Hmw; [|discriminate].
  injection Hmw as <- _. unfold verified_headers.
  by rewrite !lookup_insert_ne, strip_managed_unmanaged.
Qed.

(** X15.  The verified path.  When [verifyAgentIDToken] accepts the token
    of an agent request and [Headers.set] accepts the values, the request
    is forwarded with [x-agentid-verified: true], with [x-agentid-sub]
    holding the [sub] claim and [x-agentid-claims] holding
    [JSON.stringify] of the claims (both stripped of surrounding HTTP
    white space), and the world is the one the verification left. *)
Theorem verified_request_forwarded
    (options : AgentIDMiddlewareOptions.t) (request : NextRequest)
    (w w0 : World) (token sub : string) (claims : AgentIDClaims) :
  isAgentRequest (strip_managed (headers request)) = true ->
  extractToken (strip_managed (headers request)) = Some token ->
  verifyAgentIDToken token (verify_options options) w = (inr claims, w0) ->
  claims !! "sub" = Some (JStr sub) ->
  Hdr.valid_value (Hdr.normalize sub) = true ->
  Hdr.valid_value (Hdr.normalize (JSON_stringify claims)) = true ->
  exists hs,
    createAgentIDMiddleware options request w = (inr (NextResponse_next hs), w0)
    /\ hs !! "x-agentid-verified" = Some "true"
    /\ hs !! "x-agentid-sub" = Some (Hdr.normalize sub)
    /\ hs !! "x-agentid-claims" = Some (Hdr.normalize (JSON_stringify claims)).
Proof.
  intros Hagent Htok Hv Hsub Hvs Hvc.
  exists (verified_headers (strip_managed (headers request)) claims).
  rewrite createAgentIDMiddleware_cases. cbv zeta.
  rewrite Hagent, Htok, Hv. cbn [negb].
  destruct (inject_cases (strip_managed (headers request)) claims w0)
    as [(_ & _ & ->) | ([Hbad|Hbad] & _)].
  - split; [done|]. unfold verified_headers. rewrite Hsub.
    cbn [JSValue.toString_opt JSValue.toString]. repeat split.
    + rewrite !lookup_insert_ne by done. apply lookup_insert_eq.
    + rewrite lookup_insert_ne by done. apply lookup_insert_eq.
    + apply lookup_insert_eq.
  - rewrite Hsub in Hbad. cbn [JSValue.toString_opt JSValue.toString] in Hbad.
    congruence.
  - congruence.
Qed.

(** X16.  Round trip.  What the middleware injects on the verified path,
    [getAgentIDResult] reads back: if [JSON.parse] reads the serialized
    claims (a non-empty header value) as [parsed], the route handler gets
    the verified result with [parsed] as its claims. *)
Theorem verified_round_trip
    (options : AgentIDMiddlewareOptions.t) (request : NextRequest)
    (w w0 w' : World) (token : string) (claims : AgentIDClaims)
    (response : NextResponse) (parsed : json) :
  isAgentRequest (strip_managed (headers request)) = true ->
  extractToken (strip_managed (headers request)) = Some token ->
  verifyAgentIDToken token (verify_options options) w = (inr claims, w0) ->
  createAgentIDMiddleware options request w = (inr response, w') ->
  Hdr.normalize (JSON_stringify claims) <> "" ->
  JSON_parse (Hdr.normalize (JSON_stringify claims)) = Some parsed ->
  getAgentIDResult <$> downstream request response
  = Some (AgentIDVerified parsed).
Proof.
  intros Hagent Htok Hv Hmw Hne%truthy_true Hparse.
  rewrite createAgentIDMiddleware_cases in Hmw. cbv zeta in Hmw.
  rewrite Hagent, Htok, Hv in Hmw. cbn [negb] in Hmw.
  destruct (inject_cases (strip_managed (headers request)) claims w0)
    as [(_ & _ & Hi) | (_ & Hi)]; rewrite Hi in Hmw; [|discriminate].
  injection Hmw as <- _. cbn. f_equal.
  unfold getAgentIDResult, Hdr.get, verified_headers. cbn [headers].
  rewrite lookup_insert_eq.
  rewrite !lookup_insert_ne by done. rewrite lookup_insert_eq.
  rewrite bool_decide_eq_true_2 by done. cbn [negb JS.truthy_opt JS.nullish].
  by rewrite Hne, Hparse.
Qed.

(** X17.  End to end, no spoofing: without an override callback, a route
    handler behind the middleware reads a verified result only for a
    request whose extracted token [verifyAgentIDToken] accepted, and the
    claims it reads are what [JSON.parse] makes of the serialized claims of
    that token, whatever managed headers the client sent. *)
Theorem downstream_verified_only_if_verified
    (options : AgentIDMiddlewareOptions.t) (request : NextRequest)
    (w w' : World) (response : NextResponse) (parsed : json) :
  AgentIDMiddlewareOptions.onUnauthorizedAgent options = None ->
  createAgentIDMiddleware options request w = (inr response, w') ->
  getAgentIDResult <$> downstream request response
  = Some (AgentIDVerified parsed) ->
  exists token claims,
    extractToken (strip_managed (headers request)) = Some token
    /\ verifyAgentIDToken token (verify_options options) w = (inr claims, w')
    /\ JSON_parse (Hdr.normalize (JSON_stringify claims)) = Some parsed.
Proof.
  intros Hcb Hmw Hread.
  assert (Hflag : forall hs,
    hs !! "x-agentid-verified" <> Some "true" ->
    getAgentIDResult {| headers := hs; url := url request |}
    <> AgentIDVerified parsed).
  { intros hs Hne. unfold getAgentIDResult, Hdr.get. cbn [headers].
    by rewrite bool_decide_eq_false_2. }
  assert (Hun : forall msg block w0 w1,
    unauthorized request (strip_managed (headers request)) msg block
      (AgentIDMiddlewareOptions.onUnauthorizedAgent options) w0
    = (inr response, w1) -> False).
  { intros msg block w0 w1. rewrite unauthorized_cases, Hcb.
    destruct block; intros [= <- _]; [discriminate Hread|].
    rewrite downstream_next in Hread. injection Hread as Hread.
    revert Hread. apply Hflag.
    by rewrite lookup_insert_eq. }
  rewrite createAgentIDMiddleware_cases in Hmw. cbv zeta in Hmw.
  destruct (negb (isAgentRequest _)).
  { injection Hmw as <- _. rewrite downstream_next in Hread.
    injection Hread as Hread.
    exfalso. revert Hread. apply Hflag. rewrite strip_managed_lookup.
    by rewrite bool_decide_eq_true_2 by apply list_elem_of_here. }
  destruct (extractToken _) as [token|]; [|by destruct (Hun _ _ _ _ Hmw)].
  destruct (verifyAgentIDToken token (verify_options options) w)
    as [[err|claims] w0] eqn:Hv; [by destruct (Hun _ _ _ _ Hmw)|].
  destruct (inject_cases (strip_managed (headers request)) claims w0)
    as [(_ & _ & Hi) | (_ & Hi)]; rewrite Hi in Hmw; [|discriminate].
  injection Hmw as <- <-. exists token, claims. split; [done|]. split; [done|].
  rewrite downstream_next in Hread. injection Hread as Hread. revert Hread.
  unfold getAgentIDResult, Hdr.get, verified_headers. cbn [headers].
  rewrite lookup_insert_eq.
  rewrite !lookup_insert_ne by done. rewrite lookup_insert_eq.
  rewrite bool_decide_eq_true_2 by done. cbn [negb JS.truthy_opt JS.nullish].
  destruct (JS.truthy _); cbn [negb]; [|discriminate].
  destruct (JSON_parse _); [by intros [= ->] | discriminate].
Qed.

End MiddlewareFurther.

(** X18.  [getAgentIDResult] returns a verified result exactly when the
    flag header is ["true"] and the claims header is non-empty and parses
    as JSON; the claims are then whatever [JSON.parse] returns, of any
    shape, and the [x-agentid-sub] header plays no part.  A flag of
    ["false"] always reads as [no_token]. *)
Theorem getAgentIDResult_verified_iff `{Platform}
    (request : NextRequest) (parsed : json) :
  (getAgentIDResult request = AgentIDVerified parsed
   <-> Hdr.get (headers request) "x-agentid-verified" = Some "true"
       /\ exists claimsJson,
            Hdr.get (headers request) "x-agentid-claims" = Some claimsJson
            /\ claimsJson <> ""
            /\ JSON_parse claimsJson = Some parsed)
  /\ (Hdr.get (headers request) "x-agentid-verified" = Some "false" ->
      getAgentIDResult request = AgentIDUnverified no_token).
Proof.
  unfold getAgentIDResult. split; [|by intros ->].
  split.
  - case_bool_decide as Hflag; cbn [negb]; [|done].
    destruct (Hdr.get (headers request) "x-agentid-claims") as [c|]; [|done].
    cbn [JS.truthy_opt JS.nullish].
    destruct (JS.truthy c) eqn:Hc; cbn [negb]; [|done].
    destruct (JSON_parse c) eqn:Hp; [|done].
    intros [= ->]. split; [done|]. exists c. by rewrite <- truthy_true.
  - intros (-> & c & -> & Hc%truthy_true & Hp).
    rewrite bool_decide_eq_true_2 by done.
    cbn [negb JS.truthy_opt JS.nullish]. by rewrite Hc, Hp.
Qed.

Lemma human_traffic_passes_witness :
  exists hs,
    Sample.gate (Sample.gate_options None) SampleTraffic.browser_request 2000
    = (inr (NextResponse_next hs), Sample.world 2000)
    /\ (forall name, name ∉ MANAGED_HEADERS ->
                     hs !! name = headers SampleTraffic.browser_request !! name)
    /\ (forall name, name ∈ MANAGED_HEADERS -> hs !! name = None)
    /\ @getAgentIDResult Sample.platform
         {| headers := hs; url := url SampleTraffic.browser_request |}
       = AgentIDUnverified not_agent.
Proof.
  apply (@human_traffic_passes Sample.platform Sample.jose_lib
           (Sample.gate_options None) SampleTraffic.browser_request
           (Sample.world 2000)).
  vm_compute. reflexivity.
Defined.

Lemma missing_token_response_witness :
  snd (Sample.gate (Sample.gate_options None) SampleTraffic.tokenless_request 2000)
  = Sample.world 2000
  /\ fst (Sample.gate (Sample.gate_options None) SampleTraffic.tokenless_request 2000)
     = inr (NextResponse_json
              (JObj [("error", JStr "AGENT_UNAUTHORIZED");
                     ("message", JStr MISSING_TOKEN_MESSAGE)]) 403).
Proof.
  destruct (@missing_token_response Sample.platform Sample.jose_lib
              (Sample.gate_options None) SampleTraffic.tokenless_request
              (Sample.world 2000)) as (Hworld & Hresp & _).
  - vm_compute. reflexivity.
  - vm_compute. reflexivity.
  - split; [exact Hworld|]. apply Hresp. intros callback Hcb. discriminate Hcb.
Defined.

Lemma middleware_throws_only_when_verified_witness :
  exists token claims,
    extractToken (strip_managed (headers (Sample.agent_request "any.token.here")))
    = Some token
    /\ @verifyAgentIDToken Sample.platform
         (SampleStub.jose_returning SampleTraffic.line_feed_sub) token
         (verify_options (Sample.gate_options None))
         (SampleStub.world SampleTraffic.line_feed_sub 2000)
       = (inr claims,
          snd (@createAgentIDMiddleware Sample.platform
                 (SampleStub.jose_returning SampleTraffic.line_feed_sub)
                 (Sample.gate_options None)
                 (Sample.agent_request "any.token.here")
                 (SampleStub.world SampleTraffic.line_feed_sub 2000)))
    /\ exists msg, TypeError "Invalid header value" = TypeError msg.
Proof.
  apply (@middleware_throws_only_when_verified Sample.platform
           (SampleStub.jose_returning SampleTraffic.line_feed_sub)
           (Sample.gate_options None) (Sample.agent_request "any.token.here")
           (SampleStub.world SampleTraffic.line_feed_sub 2000)).
  - reflexivity.
  - reflexivity.
Defined.

Lemma middleware_console_witness :
  console (snd (Sample.gate (Sample.gate_options None)
                  (Sample.agent_request "RS256.expired.signed-by-test-key-1") 2000))
  = ["[agent-id] Token verification failed: TokenExpired"]
  /\ console (snd (Sample.gate (Sample.gate_options None)
                     SampleTraffic.tokenless_request 2000))
     = [].
Proof.
  split.
  - apply (proj1 (@middleware_console Sample.platform Sample.jose_lib
                    (Sample.gate_options None)
                    (Sample.agent_request "RS256.expired.signed-by-test-key-1")
                    (Sample.world 2000))
             "RS256.expired.signed-by-test-key-1"
             (JOSEError TokenExpired "TokenExpired")
             (snd (Sample.verify "RS256.expired.signed-by-test-key-1"
                     (verify_options (Sample.gate_options None)) 2000)));
      reflexivity.
  - apply (proj2 (@middleware_console Sample.platform Sample.jose_lib
                    (Sample.gate_options None) SampleTraffic.tokenless_request
                    (Sample.world 2000))).
    right. left. reflexivity.
Defined.

Lemma middleware_keeps_unmanaged_headers_witness :
  let request := Sample.agent_request "not.a.jwt" in
  let hs := <["x-agentid-verified" := "false"]> (strip_managed (headers request)) in
  Sample.gate (Sample.gate_options (Some false)) request 2000
  = (inr (NextResponse_next hs),
     snd (Sample.gate (Sample.gate_options (Some false)) request 2000))
  /\ hs !! "authorization" = Some "Bearer not.a.jwt".
Proof.
  intros request hs.
  assert (Hmw : Sample.gate (Sample.gate_options (Some false)) request 2000
                = (inr (NextResponse_next hs),
                   snd (Sample.gate (Sample.gate_options (Some false)) request 2000)))
    by reflexivity.
  split; [exact Hmw|].
  apply (@middleware_keeps_unmanaged_headers Sample.platform Sample.jose_lib
           (Sample.gate_options (Some false)) request
           (Sample.world 2000)
           (snd (Sample.gate (Sample.gate_options (Some false)) request 2000))
           hs).
  - intros callback msg Hcb. discriminate Hcb.
  - exact Hmw.
  - unfold MANAGED_HEADERS. rewrite !elem_of_cons, elem_of_nil.
    intros [Heq|[Heq|[Heq|[]]]]; discriminate Heq.
Defined.

Lemma verified_request_forwarded_witness :
  let claims := Sample.claims_of "abc123pseudosub" "agentid" "bankid" 5000 in
  exists hs,
    Sample.gate (Sample.gate_options None)
      (Sample.agent_request "RS256.valid.signed-by-test-key-1") 2000
    = (inr (NextResponse_next hs),
       snd (Sample.verify "RS256.valid.signed-by-test-key-1"
              (verify_options (Sample.gate_options None)) 2000))
    /\ hs !! "x-agentid-verified" = Some "true"
    /\ hs !! "x-agentid-sub" = Some (Hdr.normalize "abc123pseudosub")
    /\ hs !! "x-agentid-claims" = Some (Hdr.normalize (Sample.stringify claims)).
Proof.
  intros claims.
  apply (@verified_request_forwarded Sample.platform Sample.jose_lib
           (Sample.gate_options None)
           (Sample.agent_request "RS256.valid.signed-by-test-key-1")
           (Sample.world 2000) _ "RS256.valid.signed-by-test-key-1"
           "abc123pseudosub" claims);
    reflexivity.
Defined.

Lemma verified_round_trip_witness :
  let request := Sample.agent_request "RS256.valid.signed-by-test-key-1" in
  let response :=
    NextResponse_next
      (@verified_headers SampleRoundTrip.platform
         (strip_managed (headers request)) SampleRoundTrip.valid_claims) in
  fst (SampleRoundTrip.gate (Sample.gate_options None) request 2000)
  = inr response
  /\ @getAgentIDResult SampleRoundTrip.platform <$> downstream request response
     = Some (AgentIDVerified SampleRoundTrip.valid_claims_json).
Proof.
  intros request response. split; [reflexivity|].
  apply (@verified_round_trip SampleRoundTrip.platform Sample.jose_lib
           (Sample.gate_options None) request (Sample.world 2000)
           (snd (@verifyAgentIDToken SampleRoundTrip.platform Sample.jose_lib
                   "RS256.valid.signed-by-test-key-1"
                   (verify_options (Sample.gate_options None))
                   (Sample.world 2000)))
           (snd (SampleRoundTrip.gate (Sample.gate_options None) request 2000))
           "RS256.valid.signed-by-test-key-1"
           SampleRoundTrip.valid_claims response);
    [reflexivity | reflexivity | reflexivity | reflexivity
    | vm_compute; discriminate | reflexivity].
Defined.

Lemma downstream_verified_only_if_verified_witness :
  let request :=
    Sample.forge (Sample.agent_request "RS256.valid.signed-by-test-key-1") in
  exists token claims,
    extractToken (strip_managed (headers request)) = Some token
    /\ @verifyAgentIDToken SampleRoundTrip.platform Sample.jose_lib token
         (verify_options (Sample.gate_options None)) (Sample.world 2000)
       = (inr claims,
          snd (SampleRoundTrip.gate (Sample.gate_options None) request 2000))
    /\ SampleRoundTrip.parse_json (Hdr.normalize (Sample.stringify claims))
       = Some SampleRoundTrip.valid_claims_json.
Proof.
  intros request.
  apply (@downstream_verified_only_if_verified SampleRoundTrip.platform
           Sample.jose_lib (Sample.gate_options None) request
           (Sample.world 2000)
           (snd (SampleRoundTrip.gate (Sample.gate_options None) request 2000))
           (NextResponse_next
              (@verified_headers SampleRoundTrip.platform
                 (strip_managed (headers request)) SampleRoundTrip.valid_claims)));
    reflexivity.
Defined.

Lemma getAgentIDResult_verified_iff_witness :
  @getAgentIDResult Sample.platform
    {| headers := h [("x-agentid-verified", "true"); ("x-agentid-claims", "null")];
       url := "/api/data" |}
  = AgentIDVerified JNull
  /\ @getAgentIDResult Sample.platform
       {| headers := h [("x-agentid-verified", "false");
                        ("x-agentid-claims", "{}")];
          url := "/api/data" |}
     = AgentIDUnverified no_token.
Proof.
  split.
  - apply (proj1 (@getAgentIDResult_verified_iff Sample.platform _ JNull)).
    split; [reflexivity|]. exists "null".
    split; [reflexivity|]. split; [discriminate | reflexivity].
  - apply (proj2 (@getAgentIDResult_verified_iff Sample.platform _ JNull)).
    reflexivity.
Defined.

(** ** The gate and the override callback *)



